(** * Project management facade of the admin SDK: paginated listing and
    response validation

  A shallow embedding of [src/project-management/project-management.ts]:
  the [ProjectManagement] constructor, [createAndroidApp] / [createIosApp],
  [listAppMetadata] with [transformResponseToAppMetadata], the iterator
  returned by [iteratePlatformApps], and [assertListAppsResponseData].

  Server payloads are loosely typed ([any] in the source), so they are
  modelled as JavaScript values.  A promise is modelled by its outcome
  (fulfilled with a value, or rejected with an error) and the request
  handler by a function of the calls made so far, the log of calls being
  the only state the outside world keeps. *)

From Stdlib Require Import String Ascii List ZArith Bool Arith Lia.
Import ListNotations.
Set Warnings "-register-all".
Open Scope string_scope.

(** ** JavaScript values *)

(** The values a parsed JSON payload, or an argument of type [any], can
    take.  An object is its list of own properties, read first match. *)
Inductive JsValue : Type :=
| JUndefined
| JNull
| JBool (b : bool)
| JNum (z : Z)
| JStr (s : string)
| JArr (items : list JsValue)
| JObj (props : list (string * JsValue)).

(** [!v], negated: what [if (v)] and [v || w] test. *)
Definition truthy (v : JsValue) : bool :=
  match v with
  | JUndefined | JNull => false
  | JBool b => b
  | JNum z => negb (Z.eqb z 0)
  | JStr EmptyString => false
  | JStr _ => true
  | JArr _ | JObj _ => true
  end.

(** [a || b] *)
Definition orElse (a b : JsValue) : JsValue := if truthy a then a else b.

Fixpoint lookup (k : string) (props : list (string * JsValue)) : option JsValue :=
  match props with
  | [] => None
  | (k', v) :: rest => if String.eqb k k' then Some v else lookup k rest
  end.

(** [k in o] for an object [o] (a TypeError on anything else is not
    reachable from the source, which tests the operand first). *)
Definition has (k : string) (v : JsValue) : bool :=
  match v with
  | JObj props => match lookup k props with Some _ => true | None => false end
  | _ => false
  end.

(** [v.k], once [v] is known not to be [null] or [undefined]: an own
    property of an object, [undefined] when there is none.  The source reads
    only [apps], [nextPageToken], [appId], [platform], [name] and
    [displayName], none of which a prototype of Object, Array, String,
    Number or Boolean defines, so arrays and primitives give [undefined]. *)
Definition field (v : JsValue) (k : string) : JsValue :=
  match v with
  | JObj props => match lookup k props with Some x => x | None => JUndefined end
  | _ => JUndefined
  end.

(** Whether [v.k] can be evaluated at all. *)
Definition readable (v : JsValue) : bool :=
  match v with
  | JUndefined | JNull => false
  | _ => true
  end.

(** ** Errors and outcomes *)

(** What a [throw] or a rejected promise carries. *)
Inductive Error : Type :=
| FirebaseProjectManagementError (code : string) (message : string)
  (* thrown by the facade itself *)
| ServerResponseError (message : string) (responseData : JsValue)
  (* thrown by [assertServerResponse] *)
| TypeError (property : string)
  (* a property read on [null] or [undefined] *)
| HandlerRejection (reason : JsValue).
  (* the request handler's promise was rejected *)

Inductive Result (A : Type) : Type :=
| Ok (a : A)
| Throw (e : Error).

Arguments Ok {A} a.
Arguments Throw {A} e.

Definition bind {A B : Type} (r : Result A) (k : A -> Result B) : Result B :=
  match r with
  | Ok a => k a
  | Throw e => Throw e
  end.

Notation "x <- r ;; k" := (bind r (fun x => k))
  (at level 61, r at next level, right associativity).
Notation "r ;;; k" := (bind r (fun _ => k))
  (at level 61, right associativity).

(** [xs.map(f)] where [f] may throw: entries are visited in order and the
  first throw ends the whole map. *)
Fixpoint mapResult {A B : Type} (f : A -> Result B) (xs : list A) : Result (list B) :=
  match xs with
  | [] => Ok []
  | x :: rest =>
      y <- f x ;;
      ys <- mapResult f rest ;;
      Ok (y :: ys)
  end.

(** [v.k] as the language evaluates it. *)
Definition getProp (v : JsValue) (k : string) : Result JsValue :=
  if readable v then Ok (field v k) else Throw (TypeError k).

(** The error code of a classified error, if it has one. *)
Definition errorCode (e : Error) : option string :=
  match e with
  | FirebaseProjectManagementError code _ => Some code
  | ServerResponseError _ _ => Some "invalid-server-response"
  | TypeError _ | HandlerRejection _ => None
  end.

(** ** Validators *)

Module validator.

(** Modelled from the spec: [utils/validator] is not part of the sources
    at hand.  "Non-null object": an object other than [null]; an array is
    listed as a shape of its own. *)
Definition isNonNullObject (v : JsValue) : bool :=
  match v with
  | JObj _ => true
  | _ => false
  end.

(** Modelled from the spec: [utils/validator] is not part of the sources
    at hand.  "Non-empty string". *)
Definition isNonEmptyString (v : JsValue) : bool :=
  match v with
  | JStr EmptyString => false
  | JStr _ => true
  | _ => false
  end.

(** Modelled from the spec: [utils/validator] is not part of the sources
    at hand.  "Array". *)
Definition isArray (v : JsValue) : bool :=
  match v with
  | JArr _ => true
  | _ => false
  end.

End validator.

(** Modelled from the spec: [assertServerResponse] of
  [project-management-api-request] is not part of the sources at hand.
  "On any violation, fail with a classified invalid server response error
  carrying the caller-context label and the offending raw response." *)
Definition assertServerResponse (condition : bool) (responseData : JsValue)
    (message : string) : Result unit :=
  if condition then Ok tt else Throw (ServerResponseError message responseData).

(** The string a validated value holds. *)
Definition asString (v : JsValue) : string :=
  match v with
  | JStr s => s
  | _ => EmptyString
  end.

Definition dquote : string := String (ascii_of_nat 34) EmptyString.

(** [xs.map(f)] on a value: only an array has [map]. *)
Definition arrayMap {B : Type} (f : JsValue -> Result B) (xs : JsValue) : Result (list B) :=
  match xs with
  | JArr items => mapResult f items
  | _ => Throw (TypeError "map")
  end.

(** ** Domain entities *)

Inductive Platform : Type := android | ios.

(** Modelled from the spec: [AndroidApp] and [IosApp] of [android-app] and
    [ios-app] are not part of the sources at hand.  "Identified by appId;
    holds a reference to the shared Request Handler; no local state besides
    the identifier."  The handler is the one of the facade, so a handle is
    its kind and its appId. *)
Inductive App : Type :=
| AndroidApp (appId : string)
| IosApp (appId : string).

(** Modelled from the spec: the [AppPlatform] enum of [app-metadata] is not
    part of the sources at hand.  "platform: enum{ANDROID, IOS,
    PLATFORM_UNKNOWN}", an enum of strings. *)
Inductive AppPlatform : Type := PLATFORM_UNKNOWN | IOS | ANDROID.

(** The own properties of the enum object. *)
Definition appPlatformOwn (key : string) : option AppPlatform :=
  if String.eqb key "PLATFORM_UNKNOWN" then Some PLATFORM_UNKNOWN
  else if String.eqb key "IOS" then Some IOS
  else if String.eqb key "ANDROID" then Some ANDROID
  else None.

(** An enum compiles to a plain object, whose prototype is
    [Object.prototype]: these keys are found on every such object. *)
Definition objectPrototypeKeys : list string :=
  [ "constructor"; "hasOwnProperty"; "isPrototypeOf"; "propertyIsEnumerable";
    "toLocaleString"; "toString"; "valueOf"; "__proto__";
    "__defineGetter__"; "__defineSetter__"; "__lookupGetter__";
    "__lookupSetter__" ].

(** What ends up in the [platform] field of a metadata entry: a value of the
    enum, or a member of [Object.prototype] (a function or an object). *)
Inductive PlatformSlot : Type :=
| EnumValue (p : AppPlatform)
| PrototypeMember (key : string).

(** [(AppPlatform as any)[key] || AppPlatform.PLATFORM_UNKNOWN]: the enum's
    values are non-empty strings and the inherited members are functions or
    objects, all truthy; a key found nowhere reads as [undefined]. *)
Definition platformOf (key : string) : PlatformSlot :=
  match appPlatformOwn key with
  | Some p => EnumValue p
  | None =>
      if existsb (String.eqb key) objectPrototypeKeys
      then PrototypeMember key
      else EnumValue PLATFORM_UNKNOWN
  end.

Module Metadata.

(** [AppMetadata] as the facade fills it in.  [resourceName] is declared a
    string and holds whatever the entry's [name] is. *)
Record AppMetadata : Type := {
  appId : string;
  platform : PlatformSlot;
  projectId : string;
  resourceName : JsValue;
  displayName : option JsValue
}.

End Metadata.

Module Sha.

(** Modelled from the spec: [ShaCertificate] of [android-app] is not part of
    the sources at hand.  "[resourceName] is absent until the certificate has
    been registered server-side." *)
Record ShaCertificate : Type := {
  shaHash : string;
  resourceName : option string
}.

End Sha.

(** ** The request handler *)

(** A call on the request handler: the method and its arguments. *)
Inductive Request : Type :=
| ListAndroidApps (resourceName : string) (pageToken : JsValue)
| ListIosApps (resourceName : string) (pageToken : JsValue)
| CreateAndroidApp (resourceName packageName : string) (displayName : option string)
| CreateIosApp (resourceName bundleId : string) (displayName : option string)
| ListAppMetadata (resourceName : string)
| SetDisplayName (resourceName newDisplayName : string)
| DeleteShaCertificate (resourceName : string).

(** The calls made on the request handler so far, oldest first. *)
Definition World : Type := list Request.

(** A computation that may call the handler: its outcome and the log after. *)
Definition Action (A : Type) : Type := World -> Result A * World.

Definition ret {A : Type} (a : A) : Action A := fun w => (Ok a, w).

Definition throw {A : Type} (e : Error) : Action A := fun w => (Throw e, w).

Definition lift {A : Type} (r : Result A) : Action A := fun w => (r, w).

(** [p.then(k)] *)
Definition andThen {A B : Type} (p : Action A) (k : A -> Action B) : Action B :=
  fun w =>
    match p w with
    | (Ok a, w') => k a w'
    | (Throw e, w') => (Throw e, w')
    end.

(** The facade, once constructed. *)
Record ProjectManagement : Type := {
  projectId : string;
  resourceName : string
}.

Record IteratorResult : Type := {
  done : bool;
  value : list App
}.

(** The variables the closure returned by [iteratePlatformApps] captures. *)
Record Iterator : Type := {
  fetching : bool;
  nextPageToken : JsValue
}.

(** ** The facade *)

Section Facade.

(** [utils.getProjectId], whose code is not part of the sources at hand:
    the value it returns for an app, or what it throws. *)
Variable getProjectId : JsValue -> Result JsValue.

(** The request handler: what a call is answered with, given the calls made
    before it. *)
Variable respond : World -> Request -> Result JsValue.

(** One call on the request handler. *)
Definition call (rq : Request) : Action JsValue :=
  fun w => (respond w rq, (w ++ [rq])%list).

(** [new ProjectManagement(app)] *)
Definition newProjectManagement (app : JsValue) : Action ProjectManagement :=
  if negb (validator.isNonNullObject app) || negb (has "options" app) then
    throw (FirebaseProjectManagementError "invalid-argument"
      ("First argument passed to admin.projectManagement() must be a valid Firebase app "
       ++ "instance."))
  else
    match getProjectId app with
    | Throw e => throw e
    | Ok projectId =>
        if negb (validator.isNonEmptyString projectId) then
          throw (FirebaseProjectManagementError "invalid-project-id"
            ("Failed to determine project ID. Initialize the SDK with service account credentials, or "
             ++ "set project ID as an app option. Alternatively, set the GOOGLE_CLOUD_PROJECT "
             ++ "environment variable."))
        else
          ret {| projectId := asString projectId;
                 resourceName := "projects/" ++ asString projectId |}
    end.

Definition assertListAppsResponseData (responseData : JsValue) (callerName : string)
    : Result unit :=
  assertServerResponse (validator.isNonNullObject responseData) responseData
    (callerName ++ "'s responseData must be a non-null object.") ;;;
  apps <- getProp responseData "apps" ;;
  if truthy apps then
    assertServerResponse (validator.isArray apps) responseData
      (dquote ++ "apps" ++ dquote ++ " field must be present in the " ++ callerName
       ++ " response data.")
  else Ok tt.

Definition createAndroidApp (this : ProjectManagement) (packageName : string)
    (displayName : option string) : Action App :=
  andThen (call (CreateAndroidApp (resourceName this) packageName displayName))
    (fun responseData => lift (
      assertServerResponse (validator.isNonNullObject responseData) responseData
        "createAndroidApp()'s responseData must be a non-null object." ;;;
      appId <- getProp responseData "appId" ;;
      assertServerResponse (validator.isNonEmptyString appId) responseData
        (dquote ++ "responseData.appId" ++ dquote
         ++ " field must be present in createAndroidApp()'s response data.") ;;;
      Ok (AndroidApp (asString appId)))).

Definition createIosApp (this : ProjectManagement) (bundleId : string)
    (displayName : option string) : Action App :=
  andThen (call (CreateIosApp (resourceName this) bundleId displayName))
    (fun responseData => lift (
      assertServerResponse (validator.isNonNullObject responseData) responseData
        "createIosApp()'s responseData must be a non-null object." ;;;
      appId <- getProp responseData "appId" ;;
      assertServerResponse (validator.isNonEmptyString appId) responseData
        (dquote ++ "responseData.appId" ++ dquote
         ++ " field must be present in createIosApp()'s response data.") ;;;
      Ok (IosApp (asString appId)))).

(** The callback [transformResponseToAppMetadata] maps over the entries. *)
Definition toAppMetadata (this : ProjectManagement) (responseData appJson : JsValue)
    : Result Metadata.AppMetadata :=
  appId <- getProp appJson "appId" ;;
  assertServerResponse (validator.isNonEmptyString appId) responseData
    (dquote ++ "apps[].appId" ++ dquote
     ++ " field must be present in the listAppMetadata() response data.") ;;;
  platform <- getProp appJson "platform" ;;
  assertServerResponse (validator.isNonEmptyString platform) responseData
    (dquote ++ "apps[].platform" ++ dquote
     ++ " field must be present in the listAppMetadata() response data.") ;;;
  name <- getProp appJson "name" ;;
  displayName <- getProp appJson "displayName" ;;
  Ok {| Metadata.appId := asString appId;
        Metadata.platform := platformOf (asString platform);
        Metadata.projectId := projectId this;
        Metadata.resourceName := name;
        Metadata.displayName := if truthy displayName then Some displayName else None |}.

Definition transformResponseToAppMetadata (this : ProjectManagement)
    (responseData : JsValue) : Result (list Metadata.AppMetadata) :=
  assertListAppsResponseData responseData "listAppMetadata()" ;;;
  apps <- getProp responseData "apps" ;;
  if negb (truthy apps) then Ok []
  else arrayMap (toAppMetadata this responseData) apps.

Definition listAppMetadata (this : ProjectManagement) : Action (list Metadata.AppMetadata) :=
  andThen (call (ListAppMetadata (resourceName this)))
    (fun responseData => lift (transformResponseToAppMetadata this responseData)).

Definition setDisplayName (this : ProjectManagement) (newDisplayName : string)
    : Action JsValue :=
  call (SetDisplayName (resourceName this) newDisplayName).

(** [iteratePlatformApps]: the closure's variables as it returns them. *)
Definition iteratePlatformApps : Iterator :=
  {| fetching := true; nextPageToken := JUndefined |}.

(** The callback [next] maps over the entries of a page. *)
Definition toApp (platform : Platform) (callerName : string)
    (responseData appJson : JsValue) : Result App :=
  appId <- getProp appJson "appId" ;;
  assertServerResponse (validator.isNonEmptyString appId) responseData
    (dquote ++ "apps[].appId" ++ dquote ++ " field must be present in the "
     ++ callerName ++ " response data.") ;;;
  match platform with
  | android => Ok (AndroidApp (asString appId))
  | ios => Ok (IosApp (asString appId))
  end.

Definition listRequest (this : ProjectManagement) (platform : Platform)
    (pageToken : JsValue) : Request :=
  match platform with
  | android => ListAndroidApps (resourceName this) pageToken
  | ios => ListIosApps (resourceName this) pageToken
  end.

(** [next()] of the iterator [iteratePlatformApps] returns: the outcome of
    the promise, the closure's variables and the log after the call. *)
Definition next (this : ProjectManagement) (platform : Platform) (callerName : string)
    (it : Iterator) (w : World) : Result IteratorResult * Iterator * World :=
  if negb (fetching it) then (Ok {| done := true; value := [] |}, it, w)
  else
    let rq := listRequest this platform (nextPageToken it) in
    match call rq w with
    | (Throw e, w') => (Throw e, it, w')
    | (Ok responseData, w') =>
        match assertListAppsResponseData responseData callerName with
        | Throw e => (Throw e, it, w')
        | Ok _ =>
            match getProp responseData "nextPageToken" with
            | Throw e => (Throw e, it, w')
            | Ok token =>
                let it' :=
                  {| fetching := if negb (truthy token) then false else fetching it;
                     nextPageToken := token |} in
                (responseApps <- getProp responseData "apps" ;;
                 apps <- arrayMap (toApp platform callerName responseData)
                           (orElse responseApps (JArr [])) ;;
                 Ok {| value := apps; done := false |},
                 it', w')
            end
        end
    end.

(** [iterateAndroidApps()] and [iterateIosApps()]: the [next] of the iterator
    each of them creates. *)
Definition iterateAndroidApps (this : ProjectManagement) :=
  next this android "iterateAndroidApps()".

Definition iterateIosApps (this : ProjectManagement) :=
  next this ios "iterateIosApps()".

(** Modelled from the spec: [AndroidApp.deleteShaCertificate] of
    [android-app] is not part of the sources at hand.  "Precondition check,
    client-side, no network call: if [cert.resourceName] is empty/absent,
    fail immediately with an invalid-argument error stating the certificate
    lacks a resourceName"; otherwise the handler's [deleteShaCertificate] is
    called with the resource name.  The message is the one the integration
    test expects. *)
Definition deleteShaCertificate (certificateToDelete : Sha.ShaCertificate)
    : Action unit :=
  match Sha.resourceName certificateToDelete with
  | None | Some EmptyString =>
      throw (FirebaseProjectManagementError "invalid-argument"
        "Specified certificate does not include a resourceName")
  | Some name => andThen (call (DeleteShaCertificate name)) (fun _ => ret tt)
  end.

(** Modelled from the spec: [shaCertificate(hash)] is a "pure local
    constructor"; the certificate it builds has no resourceName yet. *)
Definition shaCertificate (shaHash : string) : Sha.ShaCertificate :=
  {| Sha.shaHash := shaHash; Sha.resourceName := None |}.

(** ** Driving an iterator *)

(** [n] successive calls of [next()], each awaited before the following one:
    their outcomes in order, the closure's variables and the log at the end. *)
Fixpoint pulls (step : Iterator -> World -> Result IteratorResult * Iterator * World)
    (n : nat) (it : Iterator) (w : World)
    : list (Result IteratorResult) * Iterator * World :=
  match n with
  | O => ([], it, w)
  | S n' =>
      let '(r, it', w') := step it w in
      let '(rs, it'', w'') := pulls step n' it' w' in
      (r :: rs, it'', w'')
  end.

(** [for await (const apps of iterable)], collecting the batches: the loop
    ends when a result is done, a throw ends it with the error, and [None]
    says the loop was still running after [fuel] pulls. *)
Fixpoint forAwait (step : Iterator -> World -> Result IteratorResult * Iterator * World)
    (fuel : nat) (it : Iterator) (w : World)
    : option (Result (list (list App))) * Iterator * World :=
  match fuel with
  | O => (None, it, w)
  | S fuel' =>
      match step it w with
      | (Throw e, it', w') => (Some (Throw e), it', w')
      | (Ok r, it', w') =>
          if done r then (Some (Ok []), it', w')
          else
            let '(rest, it'', w'') := forAwait step fuel' it' w' in
            (option_map (fun o => batches <- o ;; Ok (value r :: batches)) rest,
             it'', w'')
      end
  end.

End Facade.

(** ** The listing an iteration is compared with *)

Section Listing.

Variable respond : World -> Request -> Result JsValue.
Variable platform : Platform.

(** The call on the handler that asks for the page at a page token: the
    statements give it with the handler's own methods. *)
Variable request : JsValue -> Request.

(** A list response as the handler's contract gives it,
    [{ apps: [{appId, ...}], nextPageToken? }]: an object whose [apps] is an
    array of objects with a non-empty string [appId], or is absent or falsy
    (no entries). *)
Definition validEntry (entry : JsValue) : bool :=
  match entry with
  | JObj _ => validator.isNonEmptyString (field entry "appId")
  | _ => false
  end.

Definition validListResponse (page : JsValue) : bool :=
  match page with
  | JObj _ =>
      match field page "apps" with
      | JArr entries => forallb validEntry entries
      | apps => negb (truthy apps)
      end
  | _ => false
  end.

(** The continuation cursor a page carries. *)
Definition cursor (page : JsValue) : JsValue := field page "nextPageToken".

(** The entries of a page. *)
Definition pageEntries (page : JsValue) : list JsValue :=
  match field page "apps" with
  | JArr entries => entries
  | _ => []
  end.

(** The handle of an entry: the platform's app with the entry's appId. *)
Definition handleOf (entry : JsValue) : App :=
  match platform with
  | android => AndroidApp (asString (field entry "appId"))
  | ios => IosApp (asString (field entry "appId"))
  end.

(** The pages the server returns, at most [n] of them, to a client that asks
    for the page at [pageToken] and then for the page at each cursor it is
    given, until a page carries none. *)
Fixpoint serverPages (n : nat) (w : World) (pageToken : JsValue) : list JsValue :=
  match n with
  | O => []
  | S n' =>
      match respond w (request pageToken) with
      | Throw _ => []
      | Ok page =>
          page ::
          (if truthy (cursor page)
           then serverPages n' (w ++ [request pageToken])%list (cursor page)
           else [])
      end
  end.

(** The page tokens of the requests that fetch [pages], the first one being
    [pageToken]. *)
Definition requestTokens (pageToken : JsValue) (pages : list JsValue) : list JsValue :=
  firstn (length pages) (pageToken :: map cursor pages).

End Listing.

(** ** Vocabulary of the statements *)

(** A substring test, to find a caller's label in a message. *)
Fixpoint contains (needle hay : string) : bool :=
  if String.prefix needle hay then true
  else
    match hay with
    | EmptyString => false
    | String _ rest => contains needle rest
    end.

(** The [next] of the iterator the public method of a platform creates. *)
Definition iterate (respond : World -> Request -> Result JsValue)
    (this : ProjectManagement) (platform : Platform)
    : Iterator -> World -> Result IteratorResult * Iterator * World :=
  match platform with
  | android => iterateAndroidApps respond this
  | ios => iterateIosApps respond this
  end.

(** The label the public method of a platform passes down. *)
Definition callerNameOf (platform : Platform) : string :=
  match platform with
  | android => "iterateAndroidApps()"
  | ios => "iterateIosApps()"
  end.

(** The result of a pull that yields a batch, and of one that reports
    completion. *)
Definition yielded (batch : list App) : Result IteratorResult :=
  Ok {| done := false; value := batch |}.

Definition completed : Result IteratorResult :=
  Ok {| done := true; value := [] |}.

(** The closure's variables of an iterator that is still fetching and whose
    cursor is [pageToken]. *)
Definition fetchingAt (pageToken : JsValue) : Iterator :=
  {| fetching := true; nextPageToken := pageToken |}.

(** The batch a page is yielded as: the handles of its entries. *)
Definition batchOf (platform : Platform) (page : JsValue) : list App :=
  map (handleOf platform) (pageEntries page).

(** The message of a failed [appId] assertion during a pull. *)
Definition appIdMessage (callerName : string) : string :=
  (dquote ++ "apps[].appId" ++ dquote ++ " field must be present in the "
   ++ callerName ++ " response data.")%string.

(** The messages of the two assertions on an entry. *)
Definition metadataAppIdMessage : string :=
  (dquote ++ "apps[].appId" ++ dquote
   ++ " field must be present in the listAppMetadata() response data.")%string.

Definition metadataPlatformMessage : string :=
  (dquote ++ "apps[].platform" ++ dquote
   ++ " field must be present in the listAppMetadata() response data.")%string.

(** An entry [listAppMetadata()] accepts: one with a non-empty string [appId]
    and a non-empty string [platform]. *)
Definition completeEntry (entry : JsValue) : bool :=
  validator.isNonEmptyString (field entry "appId")
  && validator.isNonEmptyString (field entry "platform").

(** The metadata of an accepted entry. *)
Definition metadataOf (this : ProjectManagement) (entry : JsValue) : Metadata.AppMetadata :=
  {| Metadata.appId := asString (field entry "appId");
     Metadata.platform := platformOf (asString (field entry "platform"));
     Metadata.projectId := projectId this;
     Metadata.resourceName := field entry "name";
     Metadata.displayName :=
       if truthy (field entry "displayName")
       then Some (field entry "displayName") else None |}.

(** A classified error of [listAppMetadata()]: an invalid server response
    that carries the caller's label and the raw response. *)
Definition listAppMetadataError (responseData : JsValue) (e : Error) : Prop :=
  exists message,
    e = ServerResponseError message responseData /\
    contains "listAppMetadata()" message = true.

(** [createAndroidApp] or [createIosApp], by platform, and the call each
    makes on the handler. *)
Definition createApp (respond : World -> Request -> Result JsValue)
    (this : ProjectManagement) (platform : Platform)
    : string -> option string -> Action App :=
  match platform with
  | android => createAndroidApp respond this
  | ios => createIosApp respond this
  end.

Definition createRequest (this : ProjectManagement) (platform : Platform)
    (name : string) (displayName : option string) : Request :=
  match platform with
  | android => CreateAndroidApp (resourceName this) name displayName
  | ios => CreateIosApp (resourceName this) name displayName
  end.

Definition newHandle (platform : Platform) (appId : string) : App :=
  match platform with
  | android => AndroidApp appId
  | ios => IosApp appId
  end.


(** ** Helpers of the integration test *)

(** The string values of the [AppPlatform] enum, which are its keys. *)
Definition platformName (p : AppPlatform) : string :=
  match p with
  | PLATFORM_UNKNOWN => "PLATFORM_UNKNOWN"
  | IOS => "IOS"
  | ANDROID => "ANDROID"
  end.

Definition APP_NAMESPACE_PREFIX : string := "com.adminsdkintegrationtest.a".
Definition APP_NAMESPACE_SUFFIX_LENGTH : nat := 15.

Definition APP_DISPLAY_NAME_PREFIX : string :=
  "Created By Firebase AdminSDK Nodejs Integration Testing ".
Definition PROJECT_DISPLAY_NAME_PREFIX : string := "Nodejs AdminSDK Testing ".
Definition APP_DISPLAY_NAME_SUFFIX_LENGTH : nat := 15.
Definition PROJECT_DISPLAY_NAME_SUFFIX_LENGTH : nat := 6.

(** One digit in base 36: [0] to [9], then [a] to [z]. *)
Definition digit36 (d : nat) : ascii :=
  if Nat.ltb d 10 then ascii_of_nat (48 + d) else ascii_of_nat (87 + d).

Fixpoint toString36From (fuel n : nat) (acc : string) : string :=
  match fuel with
  | O => acc
  | S fuel' =>
      let acc' := String (digit36 (Nat.modulo n 36)) acc in
      if Nat.eqb (Nat.div n 36) 0 then acc'
      else toString36From fuel' (Nat.div n 36) acc'
  end.

(** [n.toString(36)] for a natural number [n]. *)
Definition toString36 (n : nat) : string := toString36From (S n) n EmptyString.

(** [generateRandomString]: [random i] is what the call of [_.random(35)]
    for index [i] of [_.times] returns. *)
Definition generateRandomString (random : nat -> nat) (stringLength : nat) : string :=
  String.concat EmptyString (map (fun i => toString36 (random i)) (seq 0 stringLength)).

Definition generateUniqueAppNamespace (random : nat -> nat) : string :=
  (APP_NAMESPACE_PREFIX ++ generateRandomString random APP_NAMESPACE_SUFFIX_LENGTH)%string.

Definition generateUniqueAppDisplayName (random : nat -> nat) : string :=
  (APP_DISPLAY_NAME_PREFIX
   ++ generateRandomString random APP_DISPLAY_NAME_SUFFIX_LENGTH)%string.

Definition generateUniqueProjectDisplayName (random : nat -> nat) : string :=
  (PROJECT_DISPLAY_NAME_PREFIX
   ++ generateRandomString random PROJECT_DISPLAY_NAME_SUFFIX_LENGTH)%string.

(** [v.startsWith(searchString)]: only a string has the method. *)
Definition startsWith (v : JsValue) (searchString : string) : Result JsValue :=
  match v with
  | JStr s => Ok (JBool (String.prefix searchString s))
  | _ => Throw (TypeError "startsWith")
  end.

(** [a && b], with [b] evaluated only when [a] is truthy. *)
Definition andAlso (a : JsValue) (b : Result JsValue) : Result JsValue :=
  if truthy a then b else Ok a.

Definition isIntegrationTestApp (appNamespace : JsValue) : Result JsValue :=
  andAlso appNamespace (startsWith appNamespace APP_NAMESPACE_PREFIX).

Definition isIntegrationTestAppDisplayName (appDisplayName : JsValue) : Result JsValue :=
  andAlso appDisplayName (startsWith appDisplayName APP_DISPLAY_NAME_PREFIX).

(** A lower-case letter or a digit. *)
Definition isAlphanumeric (c : ascii) : bool :=
  let n := nat_of_ascii c in
  (Nat.leb 48 n && Nat.leb n 57) || (Nat.leb 97 n && Nat.leb n 122).

Fixpoint allChars (p : ascii -> bool) (s : string) : bool :=
  match s with
  | EmptyString => true
  | String c rest => p c && allChars p rest
  end.

(** ** Concrete inputs *)

(** A project and some servers to run the facade against. *)
Definition demoProject : ProjectManagement :=
  {| projectId := "demo"; resourceName := "projects/demo" |}.

(** Modelled from the spec: [utils.getProjectId] is not part of the sources
    at hand.  "[projectId] is a non-empty string resolved from
    configuration": the resolver reads [app.options.projectId], the first
    place it looks, and like any property read this throws on options that
    are [null] or [undefined]. *)
Definition optionsProjectId (app : JsValue) : Result JsValue :=
  options <- getProp app "options" ;;
  getProp options "projectId".

(** An app handle whose options name the project [demo]. *)
Definition demoApp : JsValue :=
  JObj [("name", JStr "[DEFAULT]"); ("options", JObj [("projectId", JStr "demo")])].


(** A metadata listing whose only entry is [null]. *)
Definition nullOnlyListing : JsValue := JObj [("apps", JArr [JNull])].

(** A server that gives the same answer to every call. *)
Definition constantServer (responseData : JsValue) : World -> Request -> Result JsValue :=
  fun _ _ => Ok responseData.

(** The two pages of the spec's example. *)
Definition pageOne : JsValue :=
  JObj [("apps", JArr [JObj [("appId", JStr "a1")]]); ("nextPageToken", JStr "tok")].

Definition pageTwo : JsValue :=
  JObj [("apps", JArr [JObj [("appId", JStr "a2")]])].

(** A server that pages by cursor: page one for a request without a page
    token, page two for any other. *)
Definition cursorServer : World -> Request -> Result JsValue :=
  fun _ rq =>
    match rq with
    | ListAndroidApps _ JUndefined | ListIosApps _ JUndefined => Ok pageOne
    | _ => Ok pageTwo
    end.

(** A server that answers its first call with page one and every later call
    with page two. *)
Definition twoPageServer : World -> Request -> Result JsValue :=
  fun w _ =>
    match w with
    | [] => Ok pageOne
    | _ :: _ => Ok pageTwo
    end.

(** A page whose second entry has no [appId]. *)
Definition brokenPage : JsValue :=
  JObj [("apps", JArr [JObj [("appId", JStr "a1")]; JObj [("displayName", JStr "x")]]);
        ("nextPageToken", JStr "tok")].

(** A metadata listing whose entry names a member of [Object.prototype] as
    its platform. *)
Definition inheritedPlatformListing : JsValue :=
  JObj [("apps", JArr [JObj [("appId", JStr "app1"); ("platform", JStr "constructor");
                             ("name", JStr "projects/demo/androidApps/app1")]])].

(** A metadata listing whose entry has no [platform]. *)
Definition noPlatformListing : JsValue :=
  JObj [("apps", JArr [JObj [("appId", JStr "app1")]])].

(** A metadata listing whose entries have no [name], or a number as one. *)
Definition unnamedListing : JsValue :=
  JObj [("apps", JArr [JObj [("appId", JStr "app1"); ("platform", JStr "IOS")];
                       JObj [("appId", JStr "app2"); ("platform", JStr "WEB");
                             ("name", JNum 7)]])].

(** A server that is out of reach: every call is rejected. *)
Definition rejectingServer : World -> Request -> Result JsValue :=
  fun _ _ => Throw (HandlerRejection (JStr "unavailable")).

(** A page whose [apps] is a string, with a cursor. *)
Definition malformedPage : JsValue :=
  JObj [("apps", JStr "none"); ("nextPageToken", JStr "tok")].

(** A response whose [apps] is [null]. *)
Definition nullAppsPage : JsValue := JObj [("apps", JNull)].

(** A metadata listing with an empty and a non-empty display name, and what
    [listAppMetadata()] makes of it. *)
Definition displayNameListing : JsValue :=
  JObj [("apps", JArr [JObj [("appId", JStr "app1"); ("platform", JStr "IOS");
                             ("displayName", JStr EmptyString)];
                       JObj [("appId", JStr "app2"); ("platform", JStr "ANDROID");
                             ("displayName", JStr "Shop")]])].

Definition displayNameMetadata : list Metadata.AppMetadata :=
  [ {| Metadata.appId := "app1"; Metadata.platform := EnumValue IOS;
       Metadata.projectId := "demo"; Metadata.resourceName := JUndefined;
       Metadata.displayName := None |};
    {| Metadata.appId := "app2"; Metadata.platform := EnumValue ANDROID;
       Metadata.projectId := "demo"; Metadata.resourceName := JUndefined;
       Metadata.displayName := Some (JStr "Shop") |} ].

(** A listing whose second entry is [null]. *)
Definition nullEntryListing : JsValue :=
  JObj [("apps", JArr [JObj [("appId", JStr "app1"); ("platform", JStr "IOS")]; JNull])].

(** A listing whose only entry has neither [appId] nor [platform]. *)
Definition emptyEntryListing : JsValue := JObj [("apps", JArr [JObj []])].

Open Scope list_scope.

(** * Properties *)

(** ** Values and validators *)

Lemma mapResult_ok {A B : Type} (f : A -> Result B) (g : A -> B) (xs : list A) :
  (forall x, In x xs -> f x = Ok (g x)) -> mapResult f xs = Ok (map g xs).
Proof.
  induction xs as [|x xs IH]; intros Hf; [reflexivity|].
  cbn [mapResult map]. rewrite (Hf x (or_introl eq_refl)). cbn [bind].
  rewrite IH; [reflexivity|]. intros y Hy. apply Hf. now right.
Qed.

Lemma isNonNullObject_inv (v : JsValue) :
  validator.isNonNullObject v = true -> exists props, v = JObj props.
Proof. destruct v; cbn; try discriminate. intros _. now eexists. Qed.

Lemma isNonNullObject_readable (v : JsValue) :
  validator.isNonNullObject v = true -> readable v = true.
Proof. now destruct v. Qed.

Lemma isNonEmptyString_inv (v : JsValue) :
  validator.isNonEmptyString v = true ->
  exists s, v = JStr s /\ s <> EmptyString.
Proof.
  destruct v as [| | | |s| |]; cbn; try discriminate.
  destruct s; [discriminate|]. intros _. eexists. split; [reflexivity|discriminate].
Qed.

Lemma isNonEmptyString_truthy (v : JsValue) :
  validator.isNonEmptyString v = true -> truthy v = true.
Proof. destruct v as [| | | |s| |]; cbn; try discriminate. now destruct s. Qed.

Lemma isArray_inv (v : JsValue) :
  validator.isArray v = true -> exists items, v = JArr items.
Proof. destruct v; cbn; try discriminate. intros _. now eexists. Qed.

Lemma getProp_readable (v : JsValue) (k : string) :
  readable v = true -> getProp v k = Ok (field v k).
Proof. unfold getProp. now intros ->. Qed.

Lemma validListResponse_inv (page : JsValue) :
  validListResponse page = true ->
  exists props, page = JObj props /\
    (truthy (field page "apps") = false \/
     exists entries, field page "apps" = JArr entries /\
                     forallb validEntry entries = true).
Proof.
  destruct page as [| | | | | |props]; cbn [validListResponse]; try discriminate.
  intros H. exists props. split; [reflexivity|].
  destruct (field (JObj props) "apps") as [| | | | |entries|] eqn:Happs;
    try (left; now apply negb_true_iff in H).
  right. now exists entries.
Qed.

(** ** [assertListAppsResponseData] *)

(** What passing [assertListAppsResponseData] says about a response. *)
Lemma assertListAppsResponseData_ok_inv (responseData : JsValue) (callerName : string) :
  assertListAppsResponseData responseData callerName = Ok tt ->
  exists props, responseData = JObj props /\
    (truthy (field responseData "apps") = false \/
     exists entries, field responseData "apps" = JArr entries).
Proof.
  unfold assertListAppsResponseData, assertServerResponse.
  destruct (validator.isNonNullObject responseData) eqn:Hobj; cbn [bind]; [|discriminate].
  destruct (isNonNullObject_inv _ Hobj) as [props ->].
  rewrite getProp_readable by reflexivity. cbn [bind].
  intros H. exists props. split; [reflexivity|].
  destruct (truthy (field (JObj props) "apps")) eqn:Ht; [|now left].
  right. destruct (validator.isArray (field (JObj props) "apps")) eqn:Ha; [|discriminate].
  exact (isArray_inv _ Ha).
Qed.

Lemma assertListAppsResponseData_valid (page : JsValue) (callerName : string) :
  validListResponse page = true ->
  assertListAppsResponseData page callerName = Ok tt.
Proof.
  intros H. destruct (validListResponse_inv _ H) as (props & -> & Happs).
  unfold assertListAppsResponseData, assertServerResponse.
  cbn [validator.isNonNullObject bind]. rewrite getProp_readable by reflexivity.
  cbn [bind]. destruct Happs as [-> | (entries & -> & _)]; reflexivity.
Qed.

Lemma assertListAppsResponseData_no_apps (props : list (string * JsValue))
    (callerName : string) :
  lookup "apps" props = None ->
  assertListAppsResponseData (JObj props) callerName = Ok tt.
Proof.
  intros H. unfold assertListAppsResponseData, assertServerResponse, getProp. cbn.
  now rewrite H.
Qed.

(** ** One pull of the iterator *)

Lemma toApp_valid (platform : Platform) (callerName : string)
    (responseData entry : JsValue) :
  validEntry entry = true ->
  toApp platform callerName responseData entry = Ok (handleOf platform entry).
Proof.
  destruct entry as [| | | | | |props]; cbn [validEntry]; try discriminate.
  intros H. unfold toApp, getProp, assertServerResponse, handleOf. cbn [readable bind].
  rewrite H. cbn [bind]. now destruct platform.
Qed.

Section Pull.

Variable respond : World -> Request -> Result JsValue.
Variable this : ProjectManagement.
Variable platform : Platform.
Variable callerName : string.

Local Abbreviation step := (next respond this platform callerName).

(** An exhausted iterator answers without calling the handler. *)
Lemma next_exhausted (it : Iterator) (w : World) :
  fetching it = false -> step it w = (completed, it, w).
Proof. intros H. unfold next. now rewrite H. Qed.

Lemma pulls_exhausted (n : nat) (it : Iterator) (w : World) :
  fetching it = false -> pulls step n it w = (repeat completed n, it, w).
Proof.
  intros H. induction n as [|n IH]; [reflexivity|].
  cbn [pulls repeat]. rewrite (next_exhausted it w H), IH. reflexivity.
Qed.

(** A pull whose response passes [assertListAppsResponseData]: the cursor and
    the flag are taken from the response, whatever the entries then give. *)
Lemma next_asserted (it : Iterator) (w : World) (responseData : JsValue) :
  fetching it = true ->
  respond w (listRequest this platform (nextPageToken it)) = Ok responseData ->
  assertListAppsResponseData responseData callerName = Ok tt ->
  step it w =
    (apps <- arrayMap (toApp platform callerName responseData)
               (orElse (field responseData "apps") (JArr [])) ;;
     Ok {| value := apps; done := false |},
     {| fetching := truthy (cursor responseData);
        nextPageToken := cursor responseData |},
     w ++ [listRequest this platform (nextPageToken it)]).
Proof.
  intros Hf Hr Ha. unfold next, call. rewrite Hf, Hr. cbn [negb].
  rewrite Ha.
  destruct (assertListAppsResponseData_ok_inv _ _ Ha) as (props & -> & _).
  rewrite !getProp_readable by reflexivity. cbn [bind]. unfold cursor.
  now destruct (truthy (field (JObj props) "nextPageToken")).
Qed.

(** A pull whose response is a valid page yields the handles of its entries. *)
Lemma next_valid (it : Iterator) (w : World) (page : JsValue) :
  fetching it = true ->
  respond w (listRequest this platform (nextPageToken it)) = Ok page ->
  validListResponse page = true ->
  step it w =
    (yielded (batchOf platform page),
     {| fetching := truthy (cursor page); nextPageToken := cursor page |},
     w ++ [listRequest this platform (nextPageToken it)]).
Proof.
  intros Hf Hr Hv.
  rewrite (next_asserted it w page Hf Hr (assertListAppsResponseData_valid _ _ Hv)).
  destruct (validListResponse_inv _ Hv) as (props & -> & Happs).
  unfold batchOf, pageEntries, orElse.
  destruct Happs as [Hfalsy | (entries & -> & Hall)].
  { rewrite Hfalsy. cbn [arrayMap mapResult bind].
    destruct (field (JObj props) "apps"); try discriminate; reflexivity. }
  cbn [truthy arrayMap].
  rewrite (mapResult_ok _ (handleOf platform)); [reflexivity|].
  intros entry Hin. apply toApp_valid.
  rewrite forallb_forall in Hall. now apply Hall.
Qed.

End Pull.

(** ** A whole iteration against the server's listing *)

Lemma requestTokens_cons (pageToken page : JsValue) (pages : list JsValue) :
  requestTokens pageToken (page :: pages) = pageToken :: requestTokens (cursor page) pages.
Proof. reflexivity. Qed.

Section Iteration.

Variable respond : World -> Request -> Result JsValue.
Variable this : ProjectManagement.
Variable platform : Platform.
Variable callerName : string.

(** Every list response of the server is a valid page. *)
Hypothesis valid_responses :
  forall w pageToken, exists page,
    respond w (listRequest this platform pageToken) = Ok page /\
    validListResponse page = true.

Local Abbreviation step := (next respond this platform callerName).
Local Abbreviation pagesFrom := (serverPages respond (listRequest this platform)).

Lemma serverPages_length (n : nat) (w : World) (pageToken : JsValue) :
  length (pagesFrom n w pageToken) <= n.
Proof.
  revert w pageToken. induction n as [|n IH]; intros w pageToken; [apply Nat.le_refl|].
  cbn [serverPages].
  destruct (respond w _) as [page|e]; [|apply Nat.le_0_l].
  destruct (truthy (cursor page)); cbn [length].
  - apply le_n_S, IH.
  - apply le_n_S, Nat.le_0_l.
Qed.

(** Every page but the last one carries a cursor. *)
Lemma serverPages_cursors (n : nat) (w : World) (pageToken : JsValue) (i : nat) :
  S i < length (pagesFrom n w pageToken) ->
  truthy (cursor (nth i (pagesFrom n w pageToken) JUndefined)) = true.
Proof.
  revert w pageToken i.
  induction n as [|n IH]; intros w pageToken i; cbn [serverPages].
  - cbn. intros H. inversion H.
  - destruct (respond w _) as [page|e]; [|cbn; intros H; inversion H].
    destruct (truthy (cursor page)) eqn:Hc; cbn [length].
    + destruct i as [|i]; [intros _; exact Hc|].
      intros H. cbn [nth]. apply IH. now apply Nat.succ_lt_mono.
    + intros H. apply Nat.succ_lt_mono in H. inversion H.
Qed.

(** When the server stops before [n] pages, its last page carries no cursor. *)
Lemma serverPages_short (n : nat) (w : World) (pageToken : JsValue) :
  length (pagesFrom n w pageToken) < n ->
  exists init last,
    pagesFrom n w pageToken = init ++ [last] /\ truthy (cursor last) = false.
Proof.
  revert w pageToken.
  induction n as [|n IH]; intros w pageToken; cbn [serverPages].
  - intros H. inversion H.
  - destruct (valid_responses w pageToken) as (page & -> & _).
    destruct (truthy (cursor page)) eqn:Hc; cbn [length]; intros H.
    + apply Nat.succ_lt_mono in H.
      destruct (IH _ _ H) as (init & last & -> & Hlast).
      exists (page :: init), last. now split.
    + exists [], page. now split.
Qed.

(** The outcomes of [n] pulls and the calls they make. *)
Lemma pulls_listing (n : nat) (w : World) (pageToken : JsValue) :
  fst (fst (pulls step n (fetchingAt pageToken) w)) =
    map (fun page => yielded (batchOf platform page)) (pagesFrom n w pageToken)
    ++ repeat completed (n - length (pagesFrom n w pageToken))
  /\ snd (pulls step n (fetchingAt pageToken) w) =
    w ++ map (listRequest this platform)
           (requestTokens pageToken (pagesFrom n w pageToken)).
Proof.
  revert w pageToken.
  induction n as [|n IH]; intros w pageToken.
  - cbn. now rewrite app_nil_r.
  - cbn [pulls serverPages].
    destruct (valid_responses w pageToken) as (page & Hr & Hv).
    rewrite !(next_valid respond this platform callerName
                (fetchingAt pageToken) w page eq_refl Hr Hv).
    cbn [nextPageToken fetchingAt]. rewrite Hr.
    destruct (truthy (cursor page)) eqn:Hc.
    + specialize (IH (w ++ [listRequest this platform pageToken]) (cursor page)).
      unfold fetchingAt in IH.
      destruct (pulls step n _ _) as [[rs it'] w'] eqn:Hp. cbn [fst snd] in *.
      destruct IH as [-> ->]. rewrite requestTokens_cons. cbn [map length app].
      rewrite ?Nat.sub_succ, <- ?app_assoc. split; reflexivity.
    + rewrite (pulls_exhausted respond this platform callerName) by reflexivity.
      cbn [fst snd map length app]. rewrite Nat.sub_succ, Nat.sub_0_r. now split.
Qed.

(** The loop over the iterator ends exactly when the server's listing does,
    with the batches of its pages. *)
Lemma forAwait_listing (n : nat) (w : World) (pageToken : JsValue) :
  fst (fst (forAwait step n (fetchingAt pageToken) w)) =
    if Nat.ltb (length (pagesFrom n w pageToken)) n
    then Some (Ok (map (batchOf platform) (pagesFrom n w pageToken)))
    else None.
Proof.
  revert w pageToken.
  induction n as [|n IH]; intros w pageToken; [reflexivity|].
  cbn [forAwait serverPages].
  destruct (valid_responses w pageToken) as (page & Hr & Hv).
  rewrite (next_valid respond this platform callerName
             (fetchingAt pageToken) w page eq_refl Hr Hv).
  cbn [nextPageToken fetchingAt]. rewrite Hr. unfold yielded. cbn [done value].
  destruct (truthy (cursor page)) eqn:Hc.
  - specialize (IH (w ++ [listRequest this platform pageToken]) (cursor page)).
    unfold fetchingAt in IH.
    destruct (forAwait step n _ _) as [[rest it'] w'] eqn:Hp. cbn [fst snd] in *.
    rewrite IH. cbn [length].
    change (Nat.ltb (S (length ?l)) (S n)) with (Nat.ltb (length l) n).
    now destruct (Nat.ltb _ n).
  - destruct n as [|n]; [reflexivity|].
    cbn [forAwait]. rewrite (next_exhausted respond this platform callerName) by reflexivity.
    reflexivity.
Qed.

End Iteration.

(** ** More on one pull *)

Lemma iterate_next (respond : World -> Request -> Result JsValue)
    (this : ProjectManagement) (platform : Platform) :
  iterate respond this platform = next respond this platform (callerNameOf platform).
Proof. now destruct platform. Qed.

Lemma mapResult_throw {A B : Type} (f : A -> Result B) (pre post : list A)
    (bad : A) (e : Error) :
  (forall x, In x pre -> exists y, f x = Ok y) ->
  f bad = Throw e ->
  mapResult f (pre ++ bad :: post) = Throw e.
Proof.
  intros Hpre Hbad. induction pre as [|x pre IH]; cbn [app mapResult].
  - now rewrite Hbad.
  - destruct (Hpre x (or_introl eq_refl)) as [y ->]. cbn [bind].
    rewrite IH; [reflexivity|]. intros z Hz. apply Hpre. now right.
Qed.

(** A fetching iterator makes exactly one call per pull, at its cursor. *)
Lemma next_calls (respond : World -> Request -> Result JsValue)
    (this : ProjectManagement) (platform : Platform) (callerName : string)
    (it : Iterator) (w : World) :
  fetching it = true ->
  snd (next respond this platform callerName it w) =
    w ++ [listRequest this platform (nextPageToken it)].
Proof.
  intros H. unfold next, call. rewrite H. cbn [negb].
  destruct (respond w _) as [responseData|e]; [|reflexivity].
  destruct (assertListAppsResponseData responseData callerName); [|reflexivity].
  now destruct (getProp responseData "nextPageToken").
Qed.

Lemma toApp_invalid (platform : Platform) (callerName : string)
    (responseData entry : JsValue) :
  readable entry = true ->
  validator.isNonEmptyString (field entry "appId") = false ->
  toApp platform callerName responseData entry =
    Throw (ServerResponseError (appIdMessage callerName) responseData).
Proof.
  intros Hr Hid. unfold toApp, assertServerResponse.
  rewrite getProp_readable by exact Hr. cbn [bind]. now rewrite Hid.
Qed.

(** ** Claims about the iteration *)

(** C1.  For an iteration created by [iterateAndroidApps()] or
    [iterateIosApps()] against a server whose every list response is a valid
    page, the first [n] pulls yield, in order, one batch per page the server
    returns to a client that calls [listAndroidApps] (or [listIosApps]) on the
    facade's resource, first with no page token and then with the
    [nextPageToken] of each response, each batch being the handles of the
    page's entries; the calls made are exactly those requests; every page but
    the last carries a cursor, and once a page carries none every later pull
    reports completion; the [for await] loop ends exactly when the listing
    does, and the concatenation of its batches is the handles of all the
    entries. *)
Theorem C1_iteration_yields_server_listing
    (respond : World -> Request -> Result JsValue)
    (this : ProjectManagement) (platform : Platform) (n : nat) (w : World) :
  let request := fun pageToken =>
    match platform with
    | android => ListAndroidApps (resourceName this) pageToken
    | ios => ListIosApps (resourceName this) pageToken
    end in
  (forall log pageToken, exists page,
     respond log (request pageToken) = Ok page /\
     validListResponse page = true) ->
  let pages := serverPages respond request n w JUndefined in
  let iterator := iterate respond this platform in
  fst (fst (pulls iterator n iteratePlatformApps w)) =
    map (fun page => Ok {| done := false; value := batchOf platform page |}) pages
    ++ repeat (Ok {| done := true; value := [] |}) (n - length pages)
  /\ snd (pulls iterator n iteratePlatformApps w) =
       w ++ map request (requestTokens JUndefined pages)
  /\ (forall i, S i < length pages ->
        truthy (cursor (nth i pages JUndefined)) = true)
  /\ (length pages < n ->
        exists init last,
          pages = init ++ [last] /\ truthy (cursor last) = false)
  /\ (length pages < n ->
        exists batches,
          fst (fst (forAwait iterator n iteratePlatformApps w)) = Some (Ok batches)
          /\ batches = map (batchOf platform) pages
          /\ concat batches = map (handleOf platform) (concat (map pageEntries pages)))
  /\ (length pages = n ->
        fst (fst (forAwait iterator n iteratePlatformApps w)) = None).
Proof.
  intros request valid_responses pages iterator. subst iterator.
  change request with (listRequest this platform) in *.
  rewrite iterate_next.
  pose proof (pulls_listing respond this platform (callerNameOf platform)
                valid_responses n w JUndefined) as [Hrs Hw].
  pose proof (forAwait_listing respond this platform (callerNameOf platform)
                valid_responses n w JUndefined) as Hloop.
  fold pages in Hrs, Hw, Hloop.
  split; [exact Hrs|]. split; [exact Hw|].
  split; [apply serverPages_cursors|].
  split; [apply serverPages_short; exact valid_responses|].
  split.
  - intros Hlt. exists (map (batchOf platform) pages).
    apply Nat.ltb_lt in Hlt.
    change iteratePlatformApps with (fetchingAt JUndefined). rewrite Hloop, Hlt.
    split; [reflexivity|]. split; [reflexivity|].
    unfold batchOf. now rewrite concat_map, map_map.
  - intros Heq. change iteratePlatformApps with (fetchingAt JUndefined).
    rewrite Hloop. now rewrite Heq, Nat.ltb_irrefl.
Qed.

(** C2.  Once a pull has read a response that carries no cursor, the
    iterator is exhausted: every later pull reports completion with an empty
    batch, and the log of calls never grows again. *)
Theorem C2_exhausted_iterator_stays_done
    (respond : World -> Request -> Result JsValue)
    (this : ProjectManagement) (platform : Platform)
    (it : Iterator) (w : World) (responseData : JsValue) :
  fetching it = true ->
  respond w (listRequest this platform (nextPageToken it)) = Ok responseData ->
  assertListAppsResponseData responseData (callerNameOf platform) = Ok tt ->
  truthy (cursor responseData) = false ->
  let iterator := iterate respond this platform in
  let it' := snd (fst (iterator it w)) in
  let w' := snd (iterator it w) in
  fetching it' = false
  /\ w' = w ++ [listRequest this platform (nextPageToken it)]
  /\ forall n, pulls iterator n it' w' =
               (repeat (Ok {| done := true; value := [] |}) n, it', w').
Proof.
  intros Hf Hr Ha Hc iterator it' w'. subst it' w' iterator.
  rewrite iterate_next.
  rewrite (next_asserted respond this platform _ it w responseData Hf Hr Ha).
  cbn [fst snd fetching]. split; [exact Hc|]. split; [reflexivity|].
  intros n.
  apply (pulls_exhausted respond this platform (callerNameOf platform)).
  exact Hc.
Qed.

(** C8.  A list response that is an object with no [apps] field
    makes [listAppMetadata()] return an empty array and a pull yield an empty
    batch; neither raises an error. *)
Theorem C8_absent_apps_is_an_empty_result
    (respond : World -> Request -> Result JsValue)
    (this : ProjectManagement) (props : list (string * JsValue)) :
  lookup "apps" props = None ->
  (forall w,
     respond w (ListAppMetadata (resourceName this)) = Ok (JObj props) ->
     listAppMetadata respond this w =
       (Ok [], w ++ [ListAppMetadata (resourceName this)]))
  /\ (forall platform it w,
        fetching it = true ->
        respond w (listRequest this platform (nextPageToken it)) = Ok (JObj props) ->
        fst (fst (iterate respond this platform it w)) =
          Ok {| done := false; value := [] |}).
Proof.
  intros Hno. split.
  - intros w Hr. unfold listAppMetadata, andThen, call, lift. rewrite Hr.
    unfold transformResponseToAppMetadata.
    rewrite (assertListAppsResponseData_no_apps props _ Hno). cbn [bind].
    rewrite getProp_readable by reflexivity. cbn. now rewrite Hno.
  - intros platform it w Hf Hr. rewrite iterate_next.
    rewrite (next_asserted respond this platform _ it w (JObj props) Hf Hr
               (assertListAppsResponseData_no_apps props _ Hno)).
    cbn. now rewrite Hno.
Qed.

(** C9.  During a pull the cursor and the fetching flag are taken from the
    response before the entries are checked: when an entry's [appId]
    assertion fails, the pull throws with the iterator already advanced, and
    the next pull does not ask for the failed page again; it reports
    completion without a call when the response carried no cursor, and
    otherwise calls [listAndroidApps] (or [listIosApps]) with the response's
    [nextPageToken]. *)
Theorem C9_failed_pull_leaves_iterator_advanced
    (respond : World -> Request -> Result JsValue)
    (this : ProjectManagement) (platform : Platform)
    (it : Iterator) (w : World) (responseData : JsValue)
    (pre post : list JsValue) (bad : JsValue) :
  let request := fun pageToken =>
    match platform with
    | android => ListAndroidApps (resourceName this) pageToken
    | ios => ListIosApps (resourceName this) pageToken
    end in
  fetching it = true ->
  respond w (request (nextPageToken it)) = Ok responseData ->
  validator.isNonNullObject responseData = true ->
  field responseData "apps" = JArr (pre ++ bad :: post) ->
  forallb validEntry pre = true ->
  readable bad = true ->
  validator.isNonEmptyString (field bad "appId") = false ->
  let iterator := iterate respond this platform in
  let it' := {| fetching := truthy (field responseData "nextPageToken");
                nextPageToken := field responseData "nextPageToken" |} in
  let w' := w ++ [request (nextPageToken it)] in
  iterator it w =
    (Throw (ServerResponseError (appIdMessage (callerNameOf platform)) responseData),
     it', w')
  /\ (truthy (field responseData "nextPageToken") = false ->
        iterator it' w' = (Ok {| done := true; value := [] |}, it', w'))
  /\ (truthy (field responseData "nextPageToken") = true ->
        snd (iterator it' w') =
          w' ++ [request (field responseData "nextPageToken")]).
Proof.
  intros request Hf Hr Hobj Happs Hpre Hread Hid iterator it' w'.
  subst iterator it' w'.
  change request with (listRequest this platform) in *. clear request.
  assert (Ha : assertListAppsResponseData responseData (callerNameOf platform) = Ok tt).
  { unfold assertListAppsResponseData, assertServerResponse. rewrite Hobj. cbn [bind].
    rewrite (getProp_readable _ _ (isNonNullObject_readable _ Hobj)). cbn [bind].
    now rewrite Happs. }
  rewrite iterate_next. split; [|split].
  - rewrite (next_asserted respond this platform _ it w responseData Hf Hr Ha).
    rewrite Happs. unfold orElse. cbn [truthy arrayMap].
    rewrite (mapResult_throw _ pre post bad
               (ServerResponseError (appIdMessage (callerNameOf platform)) responseData)).
    + reflexivity.
    + intros x Hx. rewrite forallb_forall in Hpre.
      eexists. apply toApp_valid. now apply Hpre.
    + now apply toApp_invalid.
  - intros Hc. apply (next_exhausted respond this platform (callerNameOf platform)).
    exact Hc.
  - intros Hc. now rewrite next_calls.
Qed.

(** ** [transformResponseToAppMetadata] *)

Lemma toAppMetadata_complete (this : ProjectManagement) (responseData entry : JsValue) :
  readable entry = true ->
  completeEntry entry = true ->
  toAppMetadata this responseData entry = Ok (metadataOf this entry).
Proof.
  intros Hr Hc. apply andb_prop in Hc as [Hid Hpf].
  unfold toAppMetadata, assertServerResponse.
  rewrite !getProp_readable by exact Hr. cbn [bind].
  rewrite Hid. cbn [bind]. rewrite Hpf. reflexivity.
Qed.

Lemma toAppMetadata_incomplete (this : ProjectManagement) (responseData entry : JsValue) :
  readable entry = true ->
  completeEntry entry = false ->
  exists e, toAppMetadata this responseData entry = Throw e /\
            listAppMetadataError responseData e.
Proof.
  intros Hr Hc. unfold toAppMetadata, assertServerResponse.
  rewrite !getProp_readable by exact Hr. cbn [bind].
  unfold completeEntry in Hc.
  destruct (validator.isNonEmptyString (field entry "appId")); cbn [bind].
  - cbn [andb] in Hc. rewrite Hc. cbn [bind].
    eexists. split; [reflexivity|]. now exists metadataPlatformMessage.
  - eexists. split; [reflexivity|]. now exists metadataAppIdMessage.
Qed.

Lemma mapResult_some_throw {A B : Type} (f : A -> Result B) (P : Error -> Prop)
    (xs : list A) :
  (forall x, In x xs ->
     (exists y, f x = Ok y) \/ (exists e, f x = Throw e /\ P e)) ->
  (exists x, In x xs /\ exists e, f x = Throw e) ->
  exists e, mapResult f xs = Throw e /\ P e.
Proof.
  induction xs as [|x xs IH]; intros Hall (bad & Hin & e & Hbad); [destruct Hin|].
  cbn [mapResult].
  destruct (Hall x (or_introl eq_refl)) as [[y Hy] | (e' & He' & HP)].
  - rewrite Hy. cbn [bind].
    destruct IH as (e'' & -> & HP'').
    + intros z Hz. apply Hall. now right.
    + destruct Hin as [<- | Hin]; [congruence|]. exists bad. split; [exact Hin|]. now exists e.
    + now exists e''.
  - rewrite He'. now exists e'.
Qed.

Lemma transformResponseToAppMetadata_array (this : ProjectManagement)
    (props : list (string * JsValue)) (entries : list JsValue) :
  lookup "apps" props = Some (JArr entries) ->
  transformResponseToAppMetadata this (JObj props) =
    mapResult (toAppMetadata this (JObj props)) entries.
Proof.
  intros H. unfold transformResponseToAppMetadata, assertListAppsResponseData,
    assertServerResponse, getProp. cbn. now rewrite H.
Qed.

(** ** Claims about the facade *)

(** The constructor makes no call on the request handler and: fails with
    [invalid-argument] when its argument is not a non-null object with an
    [options] property; otherwise, when [getProjectId] returns a value, fails
    with [invalid-project-id] if that is not a non-empty string and stores the
    project ID and the resource name [projects/{projectId}] if it is. *)
Lemma newProjectManagement_outcomes
    (getProjectId : JsValue -> Result JsValue) (app : JsValue) (w : World) :
  snd (newProjectManagement getProjectId app w) = w
  /\ (validator.isNonNullObject app && has "options" app = false ->
        exists message,
          fst (newProjectManagement getProjectId app w) =
            Throw (FirebaseProjectManagementError "invalid-argument" message))
  /\ (validator.isNonNullObject app && has "options" app = true ->
        forall v, getProjectId app = Ok v ->
          (validator.isNonEmptyString v = false ->
             exists message,
               fst (newProjectManagement getProjectId app w) =
                 Throw (FirebaseProjectManagementError "invalid-project-id" message))
          /\ (forall id, v = JStr id -> id <> EmptyString ->
                fst (newProjectManagement getProjectId app w) =
                  Ok {| projectId := id;
                        resourceName := ("projects/" ++ id)%string |})).
Proof.
  unfold newProjectManagement.
  destruct (validator.isNonNullObject app); destruct (has "options" app); cbn [negb orb andb].
  2-4: (split; [reflexivity|]; split; [intros _; now eexists | discriminate]).
  split.
  - destruct (getProjectId app) as [v|e]; [|reflexivity].
    now destruct (validator.isNonEmptyString v).
  - split; [discriminate|]. intros _ v ->. split.
    + intros ->. now eexists.
    + intros id -> Hid. destruct id; [congruence|reflexivity].
Qed.

(** C5.  Deleting a certificate whose resource name is absent or empty fails
    with [invalid-argument], the message saying that the certificate does not
    include a resourceName, and the request handler is not called. *)
Theorem C5_delete_needs_resource_name
    (respond : World -> Request -> Result JsValue)
    (cert : Sha.ShaCertificate) (w : World) :
  Sha.resourceName cert = None \/ Sha.resourceName cert = Some EmptyString ->
  exists message,
    deleteShaCertificate respond cert w =
      (Throw (FirebaseProjectManagementError "invalid-argument" message), w)
    /\ contains "certificate does not include a resourceName" message = true.
Proof.
  intros H. unfold deleteShaCertificate.
  destruct H as [-> | ->]; eexists; split; reflexivity.
Qed.

(** When the response of [listAppMetadata()] has an [apps] array whose
    entries are all values with fields (none is [null] or [undefined]), and
    some entry's [appId] or [platform] is absent or not a non-empty string,
    the call fails, after its one call on the handler, with an invalid server
    response error that carries the label [listAppMetadata()] and the raw
    response; an entry without [platform] is not turned into
    [PLATFORM_UNKNOWN]. *)
Lemma listAppMetadata_incomplete_entry
    (respond : World -> Request -> Result JsValue)
    (this : ProjectManagement) (w : World)
    (props : list (string * JsValue)) (entries : list JsValue) :
  respond w (ListAppMetadata (resourceName this)) = Ok (JObj props) ->
  lookup "apps" props = Some (JArr entries) ->
  forallb readable entries = true ->
  (exists entry, In entry entries /\
     (validator.isNonEmptyString (field entry "appId") = false \/
      validator.isNonEmptyString (field entry "platform") = false)) ->
  exists message,
    listAppMetadata respond this w =
      (Throw (ServerResponseError message (JObj props)),
       w ++ [ListAppMetadata (resourceName this)])
    /\ contains "listAppMetadata()" message = true
    /\ errorCode (ServerResponseError message (JObj props)) =
         Some "invalid-server-response".
Proof.
  intros Hr Happs Hread (bad & Hin & Hbad).
  rewrite forallb_forall in Hread.
  assert (Hbad' : completeEntry bad = false).
  { unfold completeEntry. destruct Hbad as [-> | ->]; [reflexivity|apply andb_false_r]. }
  destruct (mapResult_some_throw (toAppMetadata this (JObj props))
              (listAppMetadataError (JObj props)) entries)
    as (e & He & message & -> & Hlabel).
  - intros x Hx. destruct (completeEntry x) eqn:Hc.
    + left. eexists. apply toAppMetadata_complete; [now apply Hread|exact Hc].
    + right. apply toAppMetadata_incomplete; [now apply Hread|exact Hc].
  - exists bad. split; [exact Hin|].
    destruct (toAppMetadata_incomplete this (JObj props) bad (Hread _ Hin) Hbad')
      as (e & He & _).
    now exists e.
  - exists message. unfold listAppMetadata, andThen, call, lift. rewrite Hr.
    rewrite (transformResponseToAppMetadata_array this props entries Happs), He.
    now repeat split.
Qed.

(** C7.  [createAndroidApp] and [createIosApp] call the handler once; when
    its response is a non-null object with a non-empty string [appId], they
    return a handle with exactly that appId; when it is not an object, or has
    no non-empty string [appId], they fail with an invalid server response
    error that carries the raw response.  Either way the call has been made by
    then. *)
Theorem C7_create_validates_response
    (respond : World -> Request -> Result JsValue)
    (this : ProjectManagement) (platform : Platform)
    (name : string) (displayName : option string)
    (w : World) (responseData : JsValue) :
  respond w (createRequest this platform name displayName) = Ok responseData ->
  (forall appId,
     validator.isNonNullObject responseData = true ->
     field responseData "appId" = JStr appId -> appId <> EmptyString ->
     createApp respond this platform name displayName w =
       (Ok (newHandle platform appId),
        w ++ [createRequest this platform name displayName]))
  /\ (validator.isNonNullObject responseData = false \/
      validator.isNonEmptyString (field responseData "appId") = false ->
      exists message,
        createApp respond this platform name displayName w =
          (Throw (ServerResponseError message responseData),
           w ++ [createRequest this platform name displayName])
        /\ errorCode (ServerResponseError message responseData) =
             Some "invalid-server-response").
Proof.
  intros Hr. split.
  - intros appId Hobj Hid Hne.
    destruct platform; cbn [createApp createRequest newHandle] in *;
      unfold createAndroidApp, createIosApp, andThen, call, lift, assertServerResponse;
      rewrite Hr, Hobj; cbn [bind];
      rewrite (getProp_readable _ _ (isNonNullObject_readable _ Hobj)); cbn [bind];
      rewrite Hid; destruct appId; try congruence; reflexivity.
  - intros Hbad.
    destruct platform; cbn [createApp createRequest] in *;
      unfold createAndroidApp, createIosApp, andThen, call, lift, assertServerResponse;
      rewrite Hr;
      (destruct (validator.isNonNullObject responseData) eqn:Hobj; cbn [bind];
       [ rewrite (getProp_readable _ _ (isNonNullObject_readable _ Hobj)); cbn [bind];
         destruct Hbad as [Hbad | Hbad]; [discriminate|]; rewrite Hbad
       | ]);
      eexists; split; reflexivity.
Qed.

(** C10.  [listAppMetadata()] copies each entry's [name] into [resourceName]
    as it is: when every entry has a non-empty string [appId] and [platform],
    the call succeeds and the [resourceName] of each metadata is the entry's
    [name], whatever that is, and [undefined] for an entry that has none. *)
Theorem C10_resourceName_is_copied_unchecked
    (respond : World -> Request -> Result JsValue)
    (this : ProjectManagement) (w : World)
    (props : list (string * JsValue)) (entries : list JsValue) :
  respond w (ListAppMetadata (resourceName this)) = Ok (JObj props) ->
  lookup "apps" props = Some (JArr entries) ->
  forallb (fun entry => readable entry && completeEntry entry) entries = true ->
  exists metadata,
    listAppMetadata respond this w =
      (Ok metadata, w ++ [ListAppMetadata (resourceName this)])
    /\ map Metadata.resourceName metadata = map (fun entry => field entry "name") entries
    /\ (forall entry, In entry entries -> has "name" entry = false ->
          In JUndefined (map Metadata.resourceName metadata)).
Proof.
  intros Hr Happs Hall. rewrite forallb_forall in Hall.
  exists (map (metadataOf this) entries).
  assert (Hnames : map Metadata.resourceName (map (metadataOf this) entries)
                   = map (fun entry => field entry "name") entries).
  { rewrite map_map. reflexivity. }
  split; [|split].
  - unfold listAppMetadata, andThen, call, lift. rewrite Hr.
    rewrite (transformResponseToAppMetadata_array this props entries Happs).
    rewrite (mapResult_ok _ (metadataOf this)); [reflexivity|].
    intros x Hx. specialize (Hall x Hx). apply andb_prop in Hall as [Hread Hc].
    now apply toAppMetadata_complete.
  - exact Hnames.
  - intros entry Hin Hno. rewrite Hnames. apply in_map_iff. exists entry.
    split; [|exact Hin].
    destruct entry as [| | | | | |eprops]; try reflexivity.
    cbn in *. now destruct (lookup "name" eprops).
Qed.

(** ** Concrete runs *)

Lemma C1_two_pages_then_completion :
  fst (fst (pulls (iterate cursorServer demoProject android) 4 iteratePlatformApps [])) =
    [ Ok {| done := false; value := [AndroidApp "a1"] |};
      Ok {| done := false; value := [AndroidApp "a2"] |};
      Ok {| done := true; value := [] |};
      Ok {| done := true; value := [] |} ]
  /\ snd (pulls (iterate cursorServer demoProject android) 4 iteratePlatformApps []) =
       [ListAndroidApps "projects/demo" JUndefined;
        ListAndroidApps "projects/demo" (JStr "tok")].
Proof.
  pose proof (C1_iteration_yields_server_listing
                cursorServer demoProject android 4 []) as H.
  cbv zeta in H. destruct H as (Hresults & Hcalls & _).
  - intros log pageToken. destruct pageToken; eexists; split; reflexivity.
  - split; [exact Hresults|exact Hcalls].
Defined.

Lemma C2_second_page_exhausts :
  fetching (snd (fst (iterate twoPageServer demoProject android
                        {| fetching := true; nextPageToken := JStr "tok" |}
                        [ListAndroidApps "projects/demo" JUndefined]))) = false.
Proof.
  refine (proj1 (C2_exhausted_iterator_stays_done
                   twoPageServer demoProject android
                   {| fetching := true; nextPageToken := JStr "tok" |}
                   [ListAndroidApps "projects/demo" JUndefined] pageTwo _ _ _ _));
    reflexivity.
Defined.

Lemma newProjectManagement_demo :
  fst (newProjectManagement optionsProjectId demoApp []) = Ok demoProject.
Proof.
  refine (proj2 (proj2 (proj2 (newProjectManagement_outcomes optionsProjectId demoApp []))
                   _ (JStr "demo") _) "demo" _ _);
    try reflexivity.
  discriminate.
Defined.

Lemma C5_unregistered_certificate :
  exists message,
    deleteShaCertificate twoPageServer
      (shaCertificate "aaaaccccaaaaccccaaaaccccaaaaccccaaaaccccaaaaccccaaaaccccaaaacccc") [] =
      (Throw (FirebaseProjectManagementError "invalid-argument" message), [])
    /\ contains "certificate does not include a resourceName" message = true.
Proof.
  apply C5_delete_needs_resource_name. left. reflexivity.
Defined.

Lemma listAppMetadata_entry_without_platform :
  exists message,
    listAppMetadata (constantServer noPlatformListing) demoProject [] =
      (Throw (ServerResponseError message noPlatformListing),
       [ListAppMetadata "projects/demo"])
    /\ contains "listAppMetadata()" message = true
    /\ errorCode (ServerResponseError message noPlatformListing) =
         Some "invalid-server-response".
Proof.
  refine (listAppMetadata_incomplete_entry
            (constantServer noPlatformListing) demoProject [] _
            [JObj [("appId", JStr "app1")]] _ _ _ _); try reflexivity.
  eexists. split; [left; reflexivity|]. right. reflexivity.
Defined.

Lemma C7_created_handle :
  createApp (constantServer (JObj [("appId", JStr "app1")])) demoProject ios
    "com.example.app" (Some "Example") [] =
    (Ok (IosApp "app1"), [CreateIosApp "projects/demo" "com.example.app" (Some "Example")]).
Proof.
  refine (proj1 (C7_create_validates_response
                   (constantServer (JObj [("appId", JStr "app1")])) demoProject ios
                   "com.example.app" (Some "Example") [] _ _) "app1" _ _ _);
    try reflexivity.
  discriminate.
Defined.

Lemma C8_empty_object_response :
  listAppMetadata (constantServer (JObj [])) demoProject [] =
    (Ok [], [ListAppMetadata "projects/demo"]).
Proof.
  refine (proj1 (C8_absent_apps_is_an_empty_result
                   (constantServer (JObj [])) demoProject [] _) [] _);
    reflexivity.
Defined.

Lemma C9_broken_page_advances :
  iterate (constantServer brokenPage) demoProject android iteratePlatformApps [] =
    (Throw (ServerResponseError (appIdMessage "iterateAndroidApps()") brokenPage),
     {| fetching := true; nextPageToken := JStr "tok" |},
     [ListAndroidApps "projects/demo" JUndefined])
  /\ snd (iterate (constantServer brokenPage) demoProject android
            {| fetching := true; nextPageToken := JStr "tok" |}
            [ListAndroidApps "projects/demo" JUndefined]) =
       [ListAndroidApps "projects/demo" JUndefined;
        ListAndroidApps "projects/demo" (JStr "tok")].
Proof.
  pose proof (C9_failed_pull_leaves_iterator_advanced
                (constantServer brokenPage) demoProject android
                iteratePlatformApps [] brokenPage
                [JObj [("appId", JStr "a1")]] [] (JObj [("displayName", JStr "x")])
                eq_refl eq_refl eq_refl eq_refl eq_refl eq_refl eq_refl)
    as (Hfirst & _ & Hnext).
  split; [exact Hfirst|exact (Hnext eq_refl)].
Defined.

Lemma C10_names_copied_as_they_are :
  exists metadata,
    listAppMetadata (constantServer unnamedListing) demoProject [] =
      (Ok metadata, [ListAppMetadata "projects/demo"])
    /\ map Metadata.resourceName metadata = [JUndefined; JNum 7].
Proof.
  destruct (C10_resourceName_is_copied_unchecked
              (constantServer unnamedListing) demoProject []
              _ _ eq_refl eq_refl eq_refl) as (metadata & Hrun & Hnames & _).
  exists metadata. split; [exact Hrun|exact Hnames].
Defined.

(** ** The platform of a metadata entry *)

(** A platform string that is neither a name of the enum nor a key of
    [Object.prototype] becomes [PLATFORM_UNKNOWN]. *)
Lemma platformOf_unrecognized (key : string) :
  appPlatformOwn key = None ->
  existsb (String.eqb key) objectPrototypeKeys = false ->
  platformOf key = EnumValue PLATFORM_UNKNOWN.
Proof. unfold platformOf. now intros -> ->. Qed.

(** A key of [Object.prototype] that is no name of the enum is found through
    the prototype chain, and the fallback is not taken. *)
Lemma platformOf_inherited (key : string) :
  appPlatformOwn key = None ->
  existsb (String.eqb key) objectPrototypeKeys = true ->
  platformOf key = PrototypeMember key.
Proof. unfold platformOf. now intros -> ->. Qed.

(** C4, at the platform string [constructor].  It names no value of the
    enum, the call succeeds, and the platform of the entry is the member of
    [Object.prototype] of that name, not [PLATFORM_UNKNOWN]. *)
Theorem C4_inherited_key_is_not_unknown :
  appPlatformOwn "constructor" = None
  /\ listAppMetadata (constantServer inheritedPlatformListing) demoProject [] =
       (Ok [ {| Metadata.appId := "app1";
                Metadata.platform := PrototypeMember "constructor";
                Metadata.projectId := "demo";
                Metadata.resourceName := JStr "projects/demo/androidApps/app1";
                Metadata.displayName := None |} ],
        [ListAppMetadata "projects/demo"]).
Proof. split; reflexivity. Qed.

(** C6, at the response [{apps: [null]}].  Its entry has neither [appId] nor
    [platform], and the call fails, but with the TypeError of the read of
    [appId] on [null]: an error with no code, no caller label and no
    response, not the invalid server response error. *)
Theorem C6_null_entry_is_not_classified :
  validator.isArray (field nullOnlyListing "apps") = true
  /\ listAppMetadata (constantServer nullOnlyListing) demoProject [] =
       (Throw (TypeError "appId"), [ListAppMetadata "projects/demo"])
  /\ errorCode (TypeError "appId") = None.
Proof. repeat split. Qed.


(** * Further properties of the facade *)

(** ** The three ways a pull can go *)

(** What a pull of a fetching iterator does, by what the handler answers:
    a rejection or a response that fails [assertListAppsResponseData] leaves
    the closure's variables as they were; any other response moves them to
    the response's cursor before the entries are mapped. *)
Lemma next_cases (respond : World -> Request -> Result JsValue)
    (this : ProjectManagement) (platform : Platform) (callerName : string)
    (it : Iterator) (w : World) :
  fetching it = true ->
  let rq := listRequest this platform (nextPageToken it) in
  (exists e, respond w rq = Throw e /\
     next respond this platform callerName it w = (Throw e, it, w ++ [rq]))
  \/ (exists responseData e,
        respond w rq = Ok responseData /\
        assertListAppsResponseData responseData callerName = Throw e /\
        next respond this platform callerName it w = (Throw e, it, w ++ [rq]))
  \/ (exists responseData,
        respond w rq = Ok responseData /\
        assertListAppsResponseData responseData callerName = Ok tt /\
        next respond this platform callerName it w =
          (apps <- arrayMap (toApp platform callerName responseData)
                     (orElse (field responseData "apps") (JArr [])) ;;
           Ok {| value := apps; done := false |},
           {| fetching := truthy (cursor responseData);
              nextPageToken := cursor responseData |},
           w ++ [rq])).
Proof.
  intros Hf rq. destruct (respond w rq) as [responseData|e] eqn:Hr.
  - destruct (assertListAppsResponseData responseData callerName) as [[]|e] eqn:Ha.
    + right. right. exists responseData. split; [reflexivity|]. split; [exact Ha|].
      exact (next_asserted respond this platform callerName it w responseData Hf Hr Ha).
    + right. left. exists responseData, e. split; [reflexivity|]. split; [exact Ha|].
      unfold next, call. fold rq. now rewrite Hf, Hr, Ha.
  - left. exists e. split; [reflexivity|].
    unfold next, call. fold rq. now rewrite Hf, Hr.
Qed.

Lemma mapResult_ok_inv {A B : Type} (f : A -> Result B) (xs : list A) (ys : list B) :
  mapResult f xs = Ok ys -> Forall2 (fun x y => f x = Ok y) xs ys.
Proof.
  revert ys. induction xs as [|x xs IH]; intros ys; cbn [mapResult].
  - intros [= <-]. constructor.
  - destruct (f x) as [y|e] eqn:Hx; cbn [bind]; [|discriminate].
    destruct (mapResult f xs) as [ys'|e]; cbn [bind]; [|discriminate].
    intros [= <-]. constructor; [exact Hx|]. now apply IH.
Qed.

Lemma toApp_ok_inv (platform : Platform) (callerName : string)
    (responseData entry : JsValue) (app : App) :
  toApp platform callerName responseData entry = Ok app ->
  validEntry entry = true /\ app = handleOf platform entry.
Proof.
  unfold toApp, getProp, assertServerResponse.
  destruct (readable entry) eqn:Hread; cbn [bind]; [|discriminate].
  destruct (validator.isNonEmptyString (field entry "appId")) eqn:Hid; cbn [bind];
    [|discriminate].
  intros H. split.
  - destruct entry; cbn in Hid; try discriminate. exact Hid.
  - unfold handleOf. destruct platform; congruence.
Qed.

Lemma handleOf_valid (platform : Platform) (entry : JsValue) :
  validEntry entry = true ->
  exists appId, handleOf platform entry = newHandle platform appId /\ appId <> EmptyString.
Proof.
  intros H. destruct entry as [| | | | | |props]; cbn [validEntry] in H; try discriminate.
  destruct (isNonEmptyString_inv _ H) as (s & Hs & Hne).
  exists s. unfold handleOf. rewrite Hs. cbn [asString]. now destruct platform.
Qed.

(** ** Pulls that fail before the cursor is stored *)

(** X1.  When the handler rejects a list call, the pull rejects with the
    same error, the iterator keeps its cursor and stays fetching, and the
    next pull asks for the same page again. *)
Theorem X1_rejected_pull_can_be_retried
    (respond : World -> Request -> Result JsValue)
    (this : ProjectManagement) (platform : Platform)
    (it : Iterator) (w : World) (e : Error) :
  fetching it = true ->
  respond w (listRequest this platform (nextPageToken it)) = Throw e ->
  let rq := listRequest this platform (nextPageToken it) in
  iterate respond this platform it w = (Throw e, it, w ++ [rq])
  /\ snd (iterate respond this platform it (w ++ [rq])) = (w ++ [rq]) ++ [rq].
Proof.
  intros Hf Hr rq. subst rq. rewrite iterate_next. split.
  - unfold next, call. now rewrite Hf, Hr.
  - now rewrite next_calls.
Qed.

(** X2.  When a list response is not a non-null object, or has a truthy
    [apps] that is not an array, the pull fails with an invalid server
    response error that carries the response, and the iterator is left as it
    was: the cursor of that response is not stored, and the next pull asks for
    the same page again. *)
Theorem X2_malformed_page_does_not_advance
    (respond : World -> Request -> Result JsValue)
    (this : ProjectManagement) (platform : Platform)
    (it : Iterator) (w : World) (responseData : JsValue) :
  fetching it = true ->
  respond w (listRequest this platform (nextPageToken it)) = Ok responseData ->
  validator.isNonNullObject responseData = false \/
  (truthy (field responseData "apps") = true /\
   validator.isArray (field responseData "apps") = false) ->
  let rq := listRequest this platform (nextPageToken it) in
  (exists message,
     iterate respond this platform it w =
       (Throw (ServerResponseError message responseData), it, w ++ [rq]))
  /\ snd (iterate respond this platform it (w ++ [rq])) = (w ++ [rq]) ++ [rq].
Proof.
  intros Hf Hr Hbad rq. subst rq. rewrite iterate_next. split.
  - unfold next, call. rewrite Hf, Hr. cbn [negb].
    unfold assertListAppsResponseData, assertServerResponse.
    destruct (validator.isNonNullObject responseData) eqn:Hobj; cbn [bind].
    + destruct Hbad as [Hbad | [Ht Ha]]; [discriminate|].
      rewrite (getProp_readable _ _ (isNonNullObject_readable _ Hobj)). cbn [bind].
      rewrite Ht, Ha. now eexists.
    + now eexists.
  - now rewrite next_calls.
Qed.

(** ** What the pulls of one iteration ask the handler *)




(** ** What a successful pull returns *)

(** X4.  A pull that succeeds reports completion exactly when the iterator
    was exhausted before it: the last page is itself returned with
    [done: false], and a fresh iterator never completes on its first pull. *)
Theorem X4_done_only_after_exhaustion
    (respond : World -> Request -> Result JsValue)
    (this : ProjectManagement) (platform : Platform)
    (it it' : Iterator) (w w' : World) (result : IteratorResult) :
  iterate respond this platform it w = (Ok result, it', w') ->
  done result = negb (fetching it).
Proof.
  rewrite iterate_next. destruct (fetching it) eqn:Hf.
  - destruct (next_cases respond this platform (callerNameOf platform) it w Hf)
      as [(e & _ & ->) | [(r & e & _ & _ & ->) | (r & _ & _ & ->)]];
      try discriminate.
    destruct (arrayMap _ _); cbn [bind]; [|discriminate].
    now intros [= <- _ _].
  - rewrite (next_exhausted respond this platform _ it w Hf).
    now intros [= <- _ _].
Qed.

(** X5.  The batch of a successful pull holds one handle per entry of the
    page, in order, each of the iterator's platform and with a non-empty
    appId. *)
Theorem X5_batch_is_the_page
    (respond : World -> Request -> Result JsValue)
    (this : ProjectManagement) (platform : Platform)
    (it it' : Iterator) (w w' : World) (result : IteratorResult) :
  fetching it = true ->
  iterate respond this platform it w = (Ok result, it', w') ->
  exists responseData,
    respond w (listRequest this platform (nextPageToken it)) = Ok responseData
    /\ value result = batchOf platform responseData
    /\ Forall (fun app => exists appId,
                 app = newHandle platform appId /\ appId <> EmptyString)
         (value result).
Proof.
  intros Hf. rewrite iterate_next.
  destruct (next_cases respond this platform (callerNameOf platform) it w Hf)
    as [(e & _ & ->) | [(r & e & _ & _ & ->) | (r & Hr & Ha & ->)]];
    try discriminate.
  intros H. exists r. split; [exact Hr|].
  destruct (assertListAppsResponseData_ok_inv _ _ Ha) as (props & -> & Happs).
  assert (Hbatch : exists entries,
             value result = map (handleOf platform) entries
             /\ batchOf platform (JObj props) = map (handleOf platform) entries
             /\ Forall (fun entry => validEntry entry = true) entries).
  { unfold batchOf, pageEntries, orElse in *.
    destruct Happs as [Hfalsy | (entries & Harr)].
    - rewrite Hfalsy in H. cbn in H. injection H as <- _ _. exists [].
      destruct (field (JObj props) "apps"); try discriminate; now repeat split.
    - rewrite Harr in *. cbn [truthy arrayMap] in H. exists entries.
      destruct (mapResult _ entries) as [apps|e] eqn:Hmap; cbn [bind] in H; [|discriminate].
      injection H as <- _ _. cbn [value].
      apply mapResult_ok_inv in Hmap. clear Harr.
      induction Hmap as [|entry app entries apps Hentry _ IH].
      + now repeat split.
      + destruct IH as (-> & _ & Hall). apply toApp_ok_inv in Hentry as [Hv ->].
        split; [reflexivity|]. split; [reflexivity|]. now constructor. }
  destruct Hbatch as (entries & -> & -> & Hall). split; [reflexivity|].
  apply Forall_map. eapply Forall_impl; [|exact Hall].
  intros entry. apply handleOf_valid.
Qed.

(** X6.  A list response whose [apps] is present but falsy ([null], [false],
    [0] or the empty string) is taken as an empty listing, not as a malformed
    one: [listAppMetadata()] returns an empty array and a pull yields an empty
    batch. *)
Theorem X6_falsy_apps_is_an_empty_listing
    (respond : World -> Request -> Result JsValue)
    (this : ProjectManagement) (responseData : JsValue) :
  validator.isNonNullObject responseData = true ->
  truthy (field responseData "apps") = false ->
  (forall w,
     respond w (ListAppMetadata (resourceName this)) = Ok responseData ->
     listAppMetadata respond this w =
       (Ok [], w ++ [ListAppMetadata (resourceName this)]))
  /\ (forall platform it w,
        fetching it = true ->
        respond w (listRequest this platform (nextPageToken it)) = Ok responseData ->
        fst (fst (iterate respond this platform it w)) =
          Ok {| done := false; value := [] |}).
Proof.
  intros Hobj Hfalsy.
  assert (Ha : forall callerName,
             assertListAppsResponseData responseData callerName = Ok tt).
  { intros callerName. unfold assertListAppsResponseData, assertServerResponse.
    rewrite Hobj. cbn [bind].
    rewrite (getProp_readable _ _ (isNonNullObject_readable _ Hobj)). cbn [bind].
    now rewrite Hfalsy. }
  split.
  - intros w Hr. unfold listAppMetadata, andThen, call, lift. rewrite Hr.
    unfold transformResponseToAppMetadata. rewrite Ha. cbn [bind].
    rewrite (getProp_readable _ _ (isNonNullObject_readable _ Hobj)). cbn [bind].
    now rewrite Hfalsy.
  - intros platform it w Hf Hr. rewrite iterate_next.
    rewrite (next_asserted respond this platform _ it w responseData Hf Hr (Ha _)).
    unfold orElse. now rewrite Hfalsy.
Qed.

(** ** What [listAppMetadata()] returns when it succeeds *)

Lemma toAppMetadata_ok_inv (this : ProjectManagement) (responseData entry : JsValue)
    (metadata : Metadata.AppMetadata) :
  toAppMetadata this responseData entry = Ok metadata ->
  readable entry = true /\ completeEntry entry = true /\ metadata = metadataOf this entry.
Proof.
  unfold toAppMetadata, getProp, assertServerResponse, completeEntry.
  destruct (readable entry); cbn [bind]; [|discriminate].
  destruct (validator.isNonEmptyString (field entry "appId")); cbn [bind]; [|discriminate].
  destruct (validator.isNonEmptyString (field entry "platform")); cbn [bind]; [|discriminate].
  intros [= <-]. now repeat split.
Qed.

Lemma transformResponseToAppMetadata_ok_inv (this : ProjectManagement)
    (responseData : JsValue) (metadata : list Metadata.AppMetadata) :
  transformResponseToAppMetadata this responseData = Ok metadata ->
  metadata = map (metadataOf this) (pageEntries responseData)
  /\ Forall (fun entry => readable entry = true /\ completeEntry entry = true)
       (pageEntries responseData).
Proof.
  unfold transformResponseToAppMetadata.
  destruct (assertListAppsResponseData responseData "listAppMetadata()") as [[]|e] eqn:Ha;
    cbn [bind]; [|discriminate].
  destruct (assertListAppsResponseData_ok_inv _ _ Ha) as (props & -> & Happs).
  rewrite getProp_readable by reflexivity. cbn [bind]. unfold pageEntries.
  destruct Happs as [Hfalsy | (entries & Harr)].
  - rewrite Hfalsy. cbn [negb]. intros [= <-].
    destruct (field (JObj props) "apps"); try discriminate; now split.
  - rewrite Harr. clear Harr. cbn [truthy negb arrayMap]. intros Hmap.
    apply mapResult_ok_inv in Hmap.
    induction Hmap as [|entry md entries mds Hentry _ IH]; [now split|].
    destruct IH as [-> Hall].
    apply toAppMetadata_ok_inv in Hentry as (Hread & Hc & ->).
    split; [reflexivity|]. now constructor.
Qed.

Lemma listAppMetadata_ok_inv (respond : World -> Request -> Result JsValue)
    (this : ProjectManagement) (w w' : World) (metadata : list Metadata.AppMetadata) :
  listAppMetadata respond this w = (Ok metadata, w') ->
  w' = w ++ [ListAppMetadata (resourceName this)]
  /\ exists responseData,
       respond w (ListAppMetadata (resourceName this)) = Ok responseData
       /\ transformResponseToAppMetadata this responseData = Ok metadata.
Proof.
  unfold listAppMetadata, andThen, call, lift.
  destruct (respond w _) as [responseData|e]; [|discriminate].
  intros [= H <-]. split; [reflexivity|]. now exists responseData.
Qed.

(** X7.  Whatever the server answers, when [listAppMetadata()] succeeds it
    has made one call, and it returns one metadata per entry of the response,
    in the entries' order: each has the entry's appId, which is a non-empty
    string, and the project ID of the facade. *)
Theorem X7_metadata_follows_the_entries
    (respond : World -> Request -> Result JsValue)
    (this : ProjectManagement) (w w' : World) (metadata : list Metadata.AppMetadata) :
  listAppMetadata respond this w = (Ok metadata, w') ->
  w' = w ++ [ListAppMetadata (resourceName this)]
  /\ exists responseData,
       respond w (ListAppMetadata (resourceName this)) = Ok responseData
       /\ map Metadata.appId metadata =
            map (fun entry => asString (field entry "appId")) (pageEntries responseData)
       /\ Forall (fun md => Metadata.appId md <> EmptyString
                            /\ Metadata.projectId md = projectId this) metadata.
Proof.
  intros H. apply listAppMetadata_ok_inv in H as (-> & responseData & Hr & Ht).
  split; [reflexivity|]. exists responseData. split; [exact Hr|].
  apply transformResponseToAppMetadata_ok_inv in Ht as [-> Hall].
  split; [now rewrite map_map|].
  apply Forall_map. eapply Forall_impl; [|exact Hall].
  intros entry [_ Hc]. cbn. split; [|reflexivity].
  apply andb_prop in Hc as [Hid _].
  destruct (isNonEmptyString_inv _ Hid) as (s & -> & Hne). exact Hne.
Qed.

(** X8.  In the result of [listAppMetadata()], a metadata has a
    [displayName] exactly when the entry's [displayName] is truthy, and it is
    then the entry's value as it is: an empty display name is left out like an
    absent one, and nothing checks that the value is a string. *)
Theorem X8_displayName_kept_when_truthy
    (respond : World -> Request -> Result JsValue)
    (this : ProjectManagement) (w w' : World) (metadata : list Metadata.AppMetadata) :
  listAppMetadata respond this w = (Ok metadata, w') ->
  exists responseData,
    respond w (ListAppMetadata (resourceName this)) = Ok responseData
    /\ Forall2 (fun entry md =>
                  (truthy (field entry "displayName") = false ->
                     Metadata.displayName md = None)
                  /\ (truthy (field entry "displayName") = true ->
                        Metadata.displayName md = Some (field entry "displayName")))
         (pageEntries responseData) metadata.
Proof.
  intros H. apply listAppMetadata_ok_inv in H as (-> & responseData & Hr & Ht).
  exists responseData. split; [exact Hr|].
  apply transformResponseToAppMetadata_ok_inv in Ht as [-> _].
  induction (pageEntries responseData) as [|entry entries IH]; cbn [map]; constructor.
  - cbn. split; intros ->; reflexivity.
  - exact IH.
Qed.

(** X9.  [listAppMetadata()] checks the entries in order and, in an entry,
    [appId] before [platform]: the error is the one of the first incomplete
    entry, about its [appId] when that is missing (whatever its [platform]),
    about its [platform] otherwise. *)
Theorem X9_first_incomplete_entry_decides_the_error
    (respond : World -> Request -> Result JsValue)
    (this : ProjectManagement) (w : World)
    (props : list (string * JsValue)) (pre post : list JsValue) (bad : JsValue) :
  respond w (ListAppMetadata (resourceName this)) = Ok (JObj props) ->
  lookup "apps" props = Some (JArr (pre ++ bad :: post)) ->
  forallb (fun entry => readable entry && completeEntry entry) pre = true ->
  readable bad = true ->
  (validator.isNonEmptyString (field bad "appId") = false ->
     listAppMetadata respond this w =
       (Throw (ServerResponseError metadataAppIdMessage (JObj props)),
        w ++ [ListAppMetadata (resourceName this)]))
  /\ (validator.isNonEmptyString (field bad "appId") = true ->
      validator.isNonEmptyString (field bad "platform") = false ->
      listAppMetadata respond this w =
        (Throw (ServerResponseError metadataPlatformMessage (JObj props)),
         w ++ [ListAppMetadata (resourceName this)])).
Proof.
  intros Hr Happs Hpre Hread. rewrite forallb_forall in Hpre.
  assert (Hok : forall x, In x pre ->
            exists y, toAppMetadata this (JObj props) x = Ok y).
  { intros x Hx. specialize (Hpre x Hx). apply andb_prop in Hpre as [Hrx Hcx].
    eexists. now apply toAppMetadata_complete. }
  unfold listAppMetadata, andThen, call, lift. rewrite Hr.
  rewrite (transformResponseToAppMetadata_array this props _ Happs).
  split.
  - intros Hid. rewrite (mapResult_throw _ pre post bad
      (ServerResponseError metadataAppIdMessage (JObj props)) Hok); [reflexivity|].
    unfold toAppMetadata, assertServerResponse.
    rewrite getProp_readable by exact Hread. cbn [bind]. now rewrite Hid.
  - intros Hid Hpf. rewrite (mapResult_throw _ pre post bad
      (ServerResponseError metadataPlatformMessage (JObj props)) Hok); [reflexivity|].
    unfold toAppMetadata, assertServerResponse.
    rewrite !getProp_readable by exact Hread. cbn [bind]. rewrite Hid. cbn [bind].
    now rewrite Hpf.
Qed.

(** X10.  An entry that is [null] or [undefined] has no fields to read: when
    it comes before any incomplete entry, [listAppMetadata()] and a pull both
    fail with the TypeError of the read of [appId], which is no classified
    error and carries no response; the pull has stored the page's cursor by
    then. *)
Theorem X10_unreadable_entry_raises_TypeError
    (respond : World -> Request -> Result JsValue)
    (this : ProjectManagement)
    (props : list (string * JsValue)) (pre post : list JsValue) (bad : JsValue) :
  lookup "apps" props = Some (JArr (pre ++ bad :: post)) ->
  readable bad = false ->
  (forall w,
     respond w (ListAppMetadata (resourceName this)) = Ok (JObj props) ->
     forallb (fun entry => readable entry && completeEntry entry) pre = true ->
     listAppMetadata respond this w =
       (Throw (TypeError "appId"), w ++ [ListAppMetadata (resourceName this)]))
  /\ (forall platform it w,
        fetching it = true ->
        respond w (listRequest this platform (nextPageToken it)) = Ok (JObj props) ->
        forallb validEntry pre = true ->
        iterate respond this platform it w =
          (Throw (TypeError "appId"),
           {| fetching := truthy (cursor (JObj props));
              nextPageToken := cursor (JObj props) |},
           w ++ [listRequest this platform (nextPageToken it)])
        /\ errorCode (TypeError "appId") = None).
Proof.
  intros Happs Hbad. split.
  - intros w Hr Hpre. rewrite forallb_forall in Hpre.
    unfold listAppMetadata, andThen, call, lift. rewrite Hr.
    rewrite (transformResponseToAppMetadata_array this props _ Happs).
    rewrite (mapResult_throw _ pre post bad (TypeError "appId")); [reflexivity| |].
    + intros x Hx. specialize (Hpre x Hx). apply andb_prop in Hpre as [Hrx Hcx].
      eexists. now apply toAppMetadata_complete.
    + unfold toAppMetadata, getProp. now rewrite Hbad.
  - intros platform it w Hf Hr Hpre. rewrite forallb_forall in Hpre.
    split; [|reflexivity]. rewrite iterate_next.
    assert (Ha : assertListAppsResponseData (JObj props) (callerNameOf platform) = Ok tt).
    { unfold assertListAppsResponseData, assertServerResponse, getProp. cbn.
      now rewrite Happs. }
    rewrite (next_asserted respond this platform _ it w (JObj props) Hf Hr Ha).
    unfold orElse. cbn [field]. rewrite Happs. cbn [truthy arrayMap].
    rewrite (mapResult_throw _ pre post bad (TypeError "appId")); [reflexivity| |].
    + intros x Hx. eexists. apply toApp_valid. now apply Hpre.
    + unfold toApp, getProp. now rewrite Hbad.
Qed.

(** ** Errors of the handler and of the constructor *)

(** X11.  A rejection of the request handler is passed on as it is by
    [createAndroidApp], [createIosApp], [listAppMetadata] and
    [setDisplayName]: the error is not wrapped, no response is validated, and
    the one call has been made. *)
Theorem X11_handler_rejections_pass_through
    (respond : World -> Request -> Result JsValue)
    (this : ProjectManagement) (w : World) (e : Error) :
  (forall platform name displayName,
     respond w (createRequest this platform name displayName) = Throw e ->
     createApp respond this platform name displayName w =
       (Throw e, w ++ [createRequest this platform name displayName]))
  /\ (respond w (ListAppMetadata (resourceName this)) = Throw e ->
      listAppMetadata respond this w =
        (Throw e, w ++ [ListAppMetadata (resourceName this)]))
  /\ (forall newDisplayName,
        respond w (SetDisplayName (resourceName this) newDisplayName) = Throw e ->
        setDisplayName respond this newDisplayName w =
          (Throw e, w ++ [SetDisplayName (resourceName this) newDisplayName])).
Proof.
  split; [|split].
  - intros platform name displayName Hr.
    destruct platform; cbn [createApp createRequest] in *;
      unfold createAndroidApp, createIosApp, andThen, call; now rewrite Hr.
  - intros Hr. unfold listAppMetadata, andThen, call. now rewrite Hr.
  - intros newDisplayName Hr. unfold setDisplayName, call. now rewrite Hr.
Qed.

(** X12.  A facade that has been constructed holds a non-empty project ID,
    the one [getProjectId] returned for the app as a string, and the resource
    name [projects/{projectId}]; its app was a non-null object with an
    [options] property.  When [getProjectId] throws for such an app, the
    constructor throws the same error. *)
Theorem X12_constructed_facade_is_well_formed
    (getProjectId : JsValue -> Result JsValue) (app : JsValue) (w w' : World) :
  (forall this,
     newProjectManagement getProjectId app w = (Ok this, w') ->
     projectId this <> EmptyString
     /\ resourceName this = ("projects/" ++ projectId this)%string
     /\ getProjectId app = Ok (JStr (projectId this))
     /\ validator.isNonNullObject app = true
     /\ has "options" app = true)
  /\ (forall e,
        validator.isNonNullObject app && has "options" app = true ->
        getProjectId app = Throw e ->
        newProjectManagement getProjectId app w = (Throw e, w)).
Proof.
  unfold newProjectManagement. split.
  - intros this.
    destruct (validator.isNonNullObject app); destruct (has "options" app);
      cbn [negb orb]; try discriminate.
    destruct (getProjectId app) as [v|e]; [|discriminate].
    destruct (validator.isNonEmptyString v) eqn:Hv; cbn [negb]; [|discriminate].
    destruct (isNonEmptyString_inv _ Hv) as (s & -> & Hne).
    unfold ret. intros [= <- _]. cbn. now repeat split.
  - intros e Hobj ->. apply andb_prop in Hobj as [-> ->]. reflexivity.
Qed.

(** X13.  An entry whose [platform] is the name of a value of the enum gets
    that value, for each of the three. *)
Theorem X13_known_platform_names_are_kept
    (this : ProjectManagement) (responseData entry : JsValue) (p : AppPlatform) :
  readable entry = true ->
  validator.isNonEmptyString (field entry "appId") = true ->
  field entry "platform" = JStr (platformName p) ->
  exists metadata,
    toAppMetadata this responseData entry = Ok metadata
    /\ Metadata.platform metadata = EnumValue p.
Proof.
  intros Hread Hid Hpf. exists (metadataOf this entry). split.
  - apply toAppMetadata_complete; [exact Hread|].
    unfold completeEntry. rewrite Hid, Hpf. now destruct p.
  - cbn. rewrite Hpf. now destruct p.
Qed.

(** ** [assertListAppsResponseData] *)

Lemma prefix_append (p s : string) : String.prefix p (p ++ s)%string = true.
Proof.
  induction p as [|a p IH]; cbn; [now destruct s|].
  destruct (Ascii.ascii_dec a a) as [_|Hne]; [exact IH|now destruct Hne].
Qed.

Lemma contains_here (needle rest : string) :
  contains needle (needle ++ rest)%string = true.
Proof.
  destruct (needle ++ rest)%string eqn:E; cbn [contains];
    rewrite <- E, prefix_append; reflexivity.
Qed.

Lemma contains_cons (needle hay : string) (a : ascii) :
  contains needle hay = true -> contains needle (String a hay) = true.
Proof. intros H. cbn [contains]. rewrite H. now destruct (String.prefix _ _). Qed.

(** X14.  [assertListAppsResponseData] accepts exactly the non-null objects
    whose [apps] is falsy or an array; every response it refuses gives an
    invalid server response error that carries that response and a message
    naming the caller. *)
Theorem X14_list_response_assertion
    (responseData : JsValue) (callerName : string) :
  (assertListAppsResponseData responseData callerName = Ok tt <->
     validator.isNonNullObject responseData = true
     /\ (truthy (field responseData "apps") = false
         \/ validator.isArray (field responseData "apps") = true))
  /\ (forall e,
        assertListAppsResponseData responseData callerName = Throw e ->
        exists message,
          e = ServerResponseError message responseData
          /\ contains callerName message = true).
Proof.
  unfold assertListAppsResponseData, assertServerResponse.
  destruct (validator.isNonNullObject responseData) eqn:Hobj; cbn [bind].
  - rewrite (getProp_readable _ _ (isNonNullObject_readable _ Hobj)). cbn [bind].
    destruct (truthy (field responseData "apps")) eqn:Ht.
    + destruct (validator.isArray (field responseData "apps")) eqn:Ha.
      * split; [|discriminate]. split; [intros _; split; [reflexivity|now right]|reflexivity].
      * split.
        -- split; [discriminate|]. intros [_ [H|H]]; discriminate.
        -- intros e [= <-]. eexists. split; [reflexivity|].
           repeat apply contains_cons. apply contains_here.
    + split; [|discriminate]. split; [intros _; split; [reflexivity|now left]|reflexivity].
  - split.
    + split; [discriminate|]. intros [H _]. discriminate.
    + intros e [= <-]. eexists. split; [reflexivity|]. apply contains_here.
Qed.

(** ** Helpers of the integration test *)

Lemma string_length_append (s t : string) :
  String.length (s ++ t)%string = String.length s + String.length t.
Proof. induction s as [|a s IH]; cbn; [reflexivity|now rewrite IH]. Qed.

Lemma allChars_append (p : ascii -> bool) (s t : string) :
  allChars p (s ++ t)%string = allChars p s && allChars p t.
Proof.
  induction s as [|a s IH]; cbn; [reflexivity|]. now rewrite IH, andb_assoc.
Qed.

Lemma concat_empty_cons (x : string) (xs : list string) :
  String.concat EmptyString (x :: xs) = (x ++ String.concat EmptyString xs)%string.
Proof.
  destruct xs as [|y ys]; cbn [String.concat]; [|reflexivity].
  induction x as [|a x IH]; cbn; [reflexivity|]. now rewrite <- IH.
Qed.

(** A number up to 35 is written with one digit, a letter or a figure. *)
Lemma toString36_digit (d : nat) :
  d <= 35 ->
  toString36 d = String (digit36 d) EmptyString
  /\ isAlphanumeric (digit36 d) = true.
Proof.
  intros H.
  do 36 (destruct d as [|d]; [split; reflexivity|]).
  exfalso. do 35 apply le_S_n in H. inversion H.
Qed.

Lemma generateRandomString_from (random : nat -> nat) (start n : nat) :
  (forall i, start <= i < start + n -> random i <= 35) ->
  let s := String.concat EmptyString
             (map (fun i => toString36 (random i)) (seq start n)) in
  String.length s = n /\ allChars isAlphanumeric s = true.
Proof.
  revert start. induction n as [|n IH]; intros start Hr; [split; reflexivity|].
  cbn [seq map]. cbv zeta. rewrite concat_empty_cons.
  destruct (toString36_digit (random start)) as [-> Hal].
  { apply Hr. split; [apply Nat.le_refl|]. rewrite Nat.add_succ_r. apply le_n_S, Nat.le_add_r. }
  destruct (IH (S start)) as [Hlen Hall].
  { intros i [Hlo Hhi]. apply Hr. split; [now apply Nat.lt_le_incl|].
    now rewrite Nat.add_succ_r. }
  cbn [append String.length allChars]. rewrite Hlen, Hal, Hall. now split.
Qed.

(** X15.  When every draw of [_.random(35)] is at most 35,
    [generateRandomString] returns a string of exactly the length asked for,
    made of lower-case letters and digits only. *)
Theorem X15_random_string_length_and_alphabet
    (random : nat -> nat) (stringLength : nat) :
  (forall i, i < stringLength -> random i <= 35) ->
  String.length (generateRandomString random stringLength) = stringLength
  /\ allChars isAlphanumeric (generateRandomString random stringLength) = true.
Proof.
  intros H. apply (generateRandomString_from random 0 stringLength).
  intros i [_ Hi]. now apply H.
Qed.

(** X16.  Whatever the random draws, a namespace from
    [generateUniqueAppNamespace] is recognised by [isIntegrationTestApp] and a
    display name from [generateUniqueAppDisplayName] by
    [isIntegrationTestAppDisplayName], while a project display name from
    [generateUniqueProjectDisplayName] is not taken for an app's; on a falsy
    argument both tests return the argument itself, not [false]. *)
Theorem X16_generated_names_are_recognised (random : nat -> nat) :
  isIntegrationTestApp (JStr (generateUniqueAppNamespace random)) = Ok (JBool true)
  /\ isIntegrationTestAppDisplayName (JStr (generateUniqueAppDisplayName random)) =
       Ok (JBool true)
  /\ isIntegrationTestAppDisplayName (JStr (generateUniqueProjectDisplayName random)) =
       Ok (JBool false)
  /\ (forall v, truthy v = false ->
        isIntegrationTestApp v = Ok v /\ isIntegrationTestAppDisplayName v = Ok v).
Proof.
  split; [|split; [|split]].
  - unfold isIntegrationTestApp, generateUniqueAppNamespace, andAlso, startsWith.
    rewrite prefix_append. reflexivity.
  - unfold isIntegrationTestAppDisplayName, generateUniqueAppDisplayName, andAlso, startsWith.
    rewrite prefix_append. reflexivity.
  - reflexivity.
  - intros v Hv. unfold isIntegrationTestApp, isIntegrationTestAppDisplayName, andAlso.
    now rewrite Hv.
Qed.

(** ** Concrete runs of the further properties *)

Lemma X1_unreachable_server :
  iterate rejectingServer demoProject android iteratePlatformApps [] =
    (Throw (HandlerRejection (JStr "unavailable")), iteratePlatformApps,
     [ListAndroidApps "projects/demo" JUndefined]).
Proof.
  refine (proj1 (X1_rejected_pull_can_be_retried
                   rejectingServer demoProject android iteratePlatformApps []
                   (HandlerRejection (JStr "unavailable")) _ _)); reflexivity.
Defined.

Lemma X2_apps_as_a_string :
  exists message,
    iterate (constantServer malformedPage) demoProject ios iteratePlatformApps [] =
      (Throw (ServerResponseError message malformedPage), iteratePlatformApps,
       [ListIosApps "projects/demo" JUndefined]).
Proof.
  refine (proj1 (X2_malformed_page_does_not_advance
                   (constantServer malformedPage) demoProject ios iteratePlatformApps []
                   malformedPage _ _ _)); try reflexivity.
  right. split; reflexivity.
Defined.

Lemma X4_last_page_is_not_done :
  done {| done := false; value := [AndroidApp "a2"] |} =
    negb (fetching {| fetching := true; nextPageToken := JStr "tok" |}).
Proof.
  refine (X4_done_only_after_exhaustion
            twoPageServer demoProject android
            {| fetching := true; nextPageToken := JStr "tok" |}
            {| fetching := false; nextPageToken := JUndefined |}
            [ListAndroidApps "projects/demo" JUndefined]
            [ListAndroidApps "projects/demo" JUndefined;
             ListAndroidApps "projects/demo" (JStr "tok")]
            _ _).
  reflexivity.
Defined.

Lemma X5_first_page_batch :
  exists responseData,
    twoPageServer [] (listRequest demoProject android JUndefined) = Ok responseData
    /\ [AndroidApp "a1"] = batchOf android responseData
    /\ Forall (fun app => exists appId,
                 app = newHandle android appId /\ appId <> EmptyString)
         [AndroidApp "a1"].
Proof.
  refine (X5_batch_is_the_page
            twoPageServer demoProject android iteratePlatformApps
            {| fetching := true; nextPageToken := JStr "tok" |}
            [] [ListAndroidApps "projects/demo" JUndefined]
            {| done := false; value := [AndroidApp "a1"] |} _ _); reflexivity.
Defined.

Lemma X6_null_apps :
  listAppMetadata (constantServer nullAppsPage) demoProject [] =
    (Ok [], [ListAppMetadata "projects/demo"]).
Proof.
  refine (proj1 (X6_falsy_apps_is_an_empty_listing
                   (constantServer nullAppsPage) demoProject nullAppsPage _ _) [] _);
    reflexivity.
Defined.

Lemma X7_two_entries :
  [ListAppMetadata "projects/demo"] = [] ++ [ListAppMetadata "projects/demo"]
  /\ exists responseData,
       constantServer displayNameListing [] (ListAppMetadata "projects/demo") =
         Ok responseData
       /\ map Metadata.appId displayNameMetadata =
            map (fun entry => asString (field entry "appId")) (pageEntries responseData)
       /\ Forall (fun md => Metadata.appId md <> EmptyString
                            /\ Metadata.projectId md = "demo") displayNameMetadata.
Proof.
  refine (X7_metadata_follows_the_entries
            (constantServer displayNameListing) demoProject []
            [ListAppMetadata "projects/demo"] displayNameMetadata _).
  reflexivity.
Defined.

Lemma X8_empty_display_name_is_dropped :
  exists responseData,
    constantServer displayNameListing [] (ListAppMetadata "projects/demo") =
      Ok responseData
    /\ Forall2 (fun entry md =>
                  (truthy (field entry "displayName") = false ->
                     Metadata.displayName md = None)
                  /\ (truthy (field entry "displayName") = true ->
                        Metadata.displayName md = Some (field entry "displayName")))
         (pageEntries responseData) displayNameMetadata.
Proof.
  refine (X8_displayName_kept_when_truthy
            (constantServer displayNameListing) demoProject []
            [ListAppMetadata "projects/demo"] displayNameMetadata _).
  reflexivity.
Defined.

Lemma X9_appId_is_reported_first :
  listAppMetadata (constantServer emptyEntryListing) demoProject [] =
    (Throw (ServerResponseError metadataAppIdMessage emptyEntryListing),
     [ListAppMetadata "projects/demo"]).
Proof.
  refine (proj1 (X9_first_incomplete_entry_decides_the_error
                   (constantServer emptyEntryListing) demoProject []
                   [("apps", JArr [JObj []])] [] [] (JObj []) _ _ _ _) _);
    reflexivity.
Defined.

Lemma X10_null_entry :
  listAppMetadata (constantServer nullEntryListing) demoProject [] =
    (Throw (TypeError "appId"), [ListAppMetadata "projects/demo"]).
Proof.
  refine (proj1 (X10_unreadable_entry_raises_TypeError
                   (constantServer nullEntryListing) demoProject
                   [("apps", JArr [JObj [("appId", JStr "app1"); ("platform", JStr "IOS")];
                                   JNull])]
                   [JObj [("appId", JStr "app1"); ("platform", JStr "IOS")]] [] JNull
                   _ _) [] _ _);
    reflexivity.
Defined.

Lemma X11_unreachable_listing :
  listAppMetadata rejectingServer demoProject [] =
    (Throw (HandlerRejection (JStr "unavailable")), [ListAppMetadata "projects/demo"]).
Proof.
  refine (proj1 (proj2 (X11_handler_rejections_pass_through
                          rejectingServer demoProject []
                          (HandlerRejection (JStr "unavailable")))) _).
  reflexivity.
Defined.

Lemma X12_demo_facade :
  projectId demoProject <> EmptyString
  /\ resourceName demoProject = ("projects/" ++ projectId demoProject)%string
  /\ optionsProjectId demoApp = Ok (JStr (projectId demoProject))
  /\ validator.isNonNullObject demoApp = true
  /\ has "options" demoApp = true.
Proof.
  refine (proj1 (X12_constructed_facade_is_well_formed optionsProjectId demoApp [] [])
            demoProject _).
  reflexivity.
Defined.

Lemma X13_android_entry :
  exists metadata,
    toAppMetadata demoProject JNull
      (JObj [("appId", JStr "app1"); ("platform", JStr "ANDROID")]) = Ok metadata
    /\ Metadata.platform metadata = EnumValue ANDROID.
Proof.
  refine (X13_known_platform_names_are_kept
            demoProject JNull
            (JObj [("appId", JStr "app1"); ("platform", JStr "ANDROID")]) ANDROID _ _ _);
    reflexivity.
Defined.

Lemma X15_fifteen_draws :
  String.length (generateRandomString (fun i => 2 * i) 15) = 15
  /\ allChars isAlphanumeric (generateRandomString (fun i => 2 * i) 15) = true.
Proof.
  apply X15_random_string_length_and_alphabet.
  intros i Hi. cbv beta. lia.
Defined.
